(** * indexstore-db: [Utilities/build-script-helper.py]

  A shallow embedding of the build orchestration script and the
  properties of its specification.

  The script is sequential Python that talks to three ambient things:
  the process environment [os.environ], the filesystem (through
  [shutil.rmtree]) and the build tool (through [subprocess]).  They are
  modelled as one explicit [World] threaded through a small state and
  exception monad; the build tool is an arbitrary function of the
  history, so every theorem holds for every behaviour of the tool.

  Paths follow [posixpath] (the script is driven by the Swift
  build-script on Darwin and Linux).  [assert] statements are active
  (the interpreter runs without [-O]), and [main] starts from the
  namespace that [argparse] has produced.

  A Python [str] is kept as the byte string the operating system sees
  for it ([os.fsencode]): the separator, the dot and the line ends are
  single bytes in every encoding a POSIX locale has, so [posixpath],
  concatenation and comparison act on the bytes as they act on the
  text.  What depends on the locale is a parameter of the host: how
  the captured output of a child is decoded, and which leading and
  trailing characters of a text [str.strip] takes for white space.
  [print] is taken to succeed. *)

From Stdlib Require Import ZArith List Ascii String Bool Lia.
From stdpp Require Import base gmap strings list.

Local Open Scope string_scope.
Local Open Scope list_scope.

(** ** [str] helpers *)

Module Str.

(** [s.startswith('/')] *)
Definition startswith_sep (s : string) : bool :=
  match s with
  | String c _ => Ascii.eqb c "/"
  | EmptyString => false
  end.

(** [s.endswith('/')] *)
Fixpoint endswith_sep (s : string) : bool :=
  match s with
  | EmptyString => false
  | String c EmptyString => Ascii.eqb c "/"
  | String _ r => endswith_sep r
  end.

(** [not s] : the empty string is falsy. *)
Definition is_empty (s : string) : bool :=
  match s with EmptyString => true | _ => false end.

(** [s.split('/')] *)
Fixpoint split_sep (s : string) : list string :=
  match s with
  | EmptyString => [EmptyString]
  | String c r =>
      if Ascii.eqb c "/" then EmptyString :: split_sep r
      else match split_sep r with
           | h :: t => String c h :: t
           | [] => [String c EmptyString]
           end
  end.

(** ['/' * n] *)
Fixpoint seps (n : nat) : string :=
  match n with O => EmptyString | S k => String "/" (seps k) end.

(** The line ends. *)
Definition CR : ascii := Ascii.ascii_of_nat 13.
Definition LF : ascii := Ascii.ascii_of_nat 10.

(** [s.replace('\r\n', '\n')] *)
Fixpoint replace_crlf (s : string) : string :=
  match s with
  | EmptyString => EmptyString
  | String c r =>
      match r with
      | String c' r' =>
          if Ascii.eqb c CR && Ascii.eqb c' LF then String LF (replace_crlf r')
          else String c (replace_crlf r)
      | EmptyString => s
      end
  end.

(** [s.replace('\r', '\n')] *)
Fixpoint replace_cr (s : string) : string :=
  match s with
  | EmptyString => EmptyString
  | String c r => String (if Ascii.eqb c CR then LF else c) (replace_cr r)
  end.

(** Every character of [s] is below 128. *)
Fixpoint is_ascii (s : string) : bool :=
  match s with
  | EmptyString => true
  | String c r => Nat.ltb (nat_of_ascii c) 128 && is_ascii r
  end.

(** The characters below 128 that are white space for [str.isspace]:
    TAB, LF, VT, FF, CR, the separators FS, GS, RS, US and the space. *)
Definition ascii_isspace (c : ascii) : bool :=
  let n := nat_of_ascii c in
  (Nat.leb 9 n && Nat.leb n 13) || (Nat.leb 28 n && Nat.leb n 32).

Fixpoint ascii_lstrip (s : string) : string :=
  match s with
  | String c r => if ascii_isspace c then ascii_lstrip r else s
  | EmptyString => EmptyString
  end.

Fixpoint ascii_rstrip (s : string) : string :=
  match s with
  | EmptyString => EmptyString
  | String c r =>
      match ascii_rstrip r with
      | EmptyString => if ascii_isspace c then EmptyString else String c EmptyString
      | r' => String c r'
      end
  end.

(** [s.strip()] for a text [s] all of whose characters are below 128;
    the other white space of Unicode does not occur in such a text. *)
Definition ascii_strip (s : string) : string := ascii_rstrip (ascii_lstrip s).

(** [s] ends with [suf]. *)
Definition ends_with (suf s : string) : Prop := exists pre, s = pre +:+ suf.

End Str.

(** ** [os.path] (posixpath) *)

Module Path.

Definition isabs (p : string) : bool := Str.startswith_sep p.

(** One round of the loop of [posixpath.join]. *)
Definition join2 (path b : string) : string :=
  if Str.startswith_sep b then b
  else if Str.is_empty path || Str.endswith_sep path then path +:+ b
  else path +:+ "/" +:+ b.

(** [os.path.join(a, *p)] *)
Definition join (a : string) (p : list string) : string :=
  fold_left join2 p a.

(** The body of the loop of [posixpath.normpath]; [new_comps] grows
    and shrinks at its end. *)
Definition normpath_step (initial_slashes : nat)
    (new_comps : list string) (comp : string) : list string :=
  if String.eqb comp EmptyString || String.eqb comp "." then new_comps
  else if negb (String.eqb comp "..")
          || (Nat.eqb initial_slashes 0 && Nat.eqb (List.length new_comps) 0)
          || (negb (Nat.eqb (List.length new_comps) 0)
              && String.eqb (List.last new_comps EmptyString) "..")
       then new_comps ++ [comp]
  else if negb (Nat.eqb (List.length new_comps) 0) then removelast new_comps
  else new_comps.

Definition initial_slashes (path : string) : nat :=
  if Str.startswith_sep path then
    if String.prefix "//" path && negb (String.prefix "///" path) then 2
    else 1
  else 0.

(** [os.path.normpath(path)] *)
Definition normpath (path : string) : string :=
  if String.eqb path EmptyString then "."
  else
    let n := initial_slashes path in
    let comps := fold_left (normpath_step n) (Str.split_sep path) [] in
    let path' := Str.seps n +:+ String.concat "/" comps in
    if String.eqb path' EmptyString then "." else path'.

(** [os.path.abspath(path)], with [cwd] the value of [os.getcwd()]. *)
Definition abspath (cwd path : string) : string :=
  normpath (if isabs path then path else join cwd [path]).

End Path.

(** ** The world outside the script *)

(** Errors of the operating system that matter here. *)
Inductive Errno := ENOENT | EACCES.

(** The filesystem as far as [shutil.rmtree] can tell: the paths that
    exist, and the ones whose removal the system refuses. *)
Record FS := mkFS {
  present : gset string;
  locked : gset string
}.

(** Exceptions the script can die of.  [FileNotFoundError] is the
    [OSError] with [ENOENT]. *)
Inductive Exn :=
| CalledProcessError (returncode : Z) (cmd : list string)
| AssertionError (msg : string)
| OSError (errno : Errno)
| UnicodeDecodeError.

(** What a [subprocess] call observes: the child ran and exited with a
    return code, having written some bytes to its standard output, or
    it could not be started. *)
Inductive SpawnResult :=
| Exited (returncode : Z) (output : string)
| LaunchFailed (errno : Errno).

(** Everything the script does to the outside, in order. *)
Inductive Event :=
| EvPrint (line : string)
| EvRmtree (path : string) (err : option Errno)
| EvSpawn (cmd : list string) (env : gmap string string) (res : SpawnResult).

Record World := mkWorld {
  environ : gmap string string;   (* os.environ *)
  fs : FS;
  events : list Event
}.

(** What the script reads but cannot change: [platform.system()]; the
    working directory [getcwd], and whether it has been removed under
    the process, in which case [os.getcwd()] raises
    [FileNotFoundError]; the decoding of captured output in the
    encoding of the locale, with strict error handling, which has no
    result for bytes that are not text in that encoding; [str.strip]
    on a text; and the build tool, which sees the history, its command
    line, its environment and the filesystem, and answers with its
    result and the filesystem it leaves behind. *)
Record Host := mkHost {
  system : string;
  getcwd : string;
  cwd_removed : bool;
  locale_decode : string -> option string;
  str_strip : string -> string;
  tool : list Event -> list string -> gmap string string -> FS -> SpawnResult * FS
}.

(** ** State and exception monad *)

Inductive Result (A : Type) :=
| Ok (a : A)
| Raise (e : Exn).
Arguments Ok {A} a.
Arguments Raise {A} e.

Definition Py (A : Type) : Type := World -> Result A * World.

Definition ret {A} (a : A) : Py A := fun w => (Ok a, w).

Definition raise {A} (e : Exn) : Py A := fun w => (Raise e, w).

Definition bind {A B} (m : Py A) (k : A -> Py B) : Py B :=
  fun w =>
    match m w with
    | (Ok a, w') => k a w'
    | (Raise e, w') => (Raise e, w')
    end.

Declare Scope py_scope.
Delimit Scope py_scope with py.
Notation "x <~ c1 ;; c2" := (bind c1 (fun x => c2))
  (at level 100, c1 at next level, right associativity) : py_scope.
Notation "c1 ;;; c2" := (bind c1 (fun _ => c2))
  (at level 100, right associativity) : py_scope.
Local Open Scope py_scope.

Definition emit (e : Event) : Py unit :=
  fun w => (Ok tt, mkWorld (environ w) (fs w) (events w ++ [e])).

(** An uncaught exception ends the interpreter with status 1; falling
    off the end of the script ends it with status 0. *)
Definition exit_status {A} (r : Result A) : Z :=
  match r with
  | Ok _ => 0
  | Raise _ => 1
  end.

(** ** Library calls *)

(** [print(line)] *)
Definition print (line : string) : Py unit := emit (EvPrint line).

(** [q] is [root] or lies below it. *)
Definition is_under (root q : string) : bool :=
  String.eqb q root || String.prefix (root +:+ "/") q.

(** What removing the tree at [path] does to the filesystem, and the
    first error it meets. *)
Definition os_rmtree (path : string) (f : FS) : FS * option Errno :=
  if negb (bool_decide (path ∈ present f)) then (f, Some ENOENT)
  else if bool_decide (path ∈ locked f) then (f, Some EACCES)
  else (mkFS (filter (fun q => is_under path q = false) (present f)) (locked f),
        None).

(** [shutil.rmtree(path, ignore_errors=...)] *)
Definition shutil_rmtree (path : string) (ignore_errors : bool) : Py unit :=
  fun w =>
    let '(f', err) := os_rmtree path (fs w) in
    let w' := mkWorld (environ w) f' (events w ++ [EvRmtree path err]) in
    match err with
    | Some e => if ignore_errors then (Ok tt, w') else (Raise (OSError e), w')
    | None => (Ok tt, w')
    end.

(** A mapping object that holds an environment.  The script has only
    one: [os.environ] itself. *)
Inductive EnvRef := os_environ.

(** [env[key] = value] *)
Definition env_setitem (env : EnvRef) (key value : string) : Py unit :=
  fun w =>
    match env with
    | os_environ => (Ok tt, mkWorld (<[key := value]> (environ w)) (fs w) (events w))
    end.

(** The content of the mapping at this moment. *)
Definition env_read (env : EnvRef) (w : World) : gmap string string :=
  match env with
  | os_environ => environ w
  end.

(** ** The parsed command line *)

(** The [argparse] namespace [args].  [sanitize] is [None] when no
    [--sanitize] was given ([action='append']), [ninja_bin] is [None]
    when no [--ninja-bin] was given. *)
Record Args := mkArgs {
  action : string;
  package_path : string;
  toolchain : string;
  ninja_bin : option string;
  build_path : string;
  configuration : string;
  sanitize : option (list string);
  sanitize_all : bool;
  verbose : bool
}.

Definition set_package_path (v : string) (a : Args) : Args :=
  mkArgs (action a) v (toolchain a) (ninja_bin a) (build_path a)
         (configuration a) (sanitize a) (sanitize_all a) (verbose a).

Definition set_toolchain (v : string) (a : Args) : Args :=
  mkArgs (action a) (package_path a) v (ninja_bin a) (build_path a)
         (configuration a) (sanitize a) (sanitize_all a) (verbose a).

Definition set_build_path (v : string) (a : Args) : Args :=
  mkArgs (action a) (package_path a) (toolchain a) (ninja_bin a) v
         (configuration a) (sanitize a) (sanitize_all a) (verbose a).

Definition set_sanitize (v : option (list string)) (a : Args) : Args :=
  mkArgs (action a) (package_path a) (toolchain a) (ninja_bin a) (build_path a)
         (configuration a) v (sanitize_all a) (verbose a).

(** Truth value of [args.sanitize]: [None] and the empty list are falsy. *)
Definition sanitize_truthy (a : Args) : bool :=
  match sanitize a with
  | Some (_ :: _) => true
  | _ => false
  end.

(** [args.sanitize and name in args.sanitize] *)
Definition sanitize_has (name : string) (a : Args) : bool :=
  match sanitize a with
  | Some l => sanitize_truthy a && existsb (String.eqb name) l
  | None => false
  end.

(** ** The script *)

Section Script.

Variable host : Host.

(** [subprocess]: run [cmd] in the environment held by [env]. *)
Definition spawn (cmd : list string) (env : EnvRef) : Py SpawnResult :=
  fun w =>
    let e := env_read env w in
    let '(r, f') := tool host (events w) cmd e (fs w) in
    (Ok r, mkWorld (environ w) f' (events w ++ [EvSpawn cmd e r])).

(** [subprocess.check_call(cmd, env=env)] *)
Definition check_call (cmd : list string) (env : EnvRef) : Py unit :=
  r <~ spawn cmd env ;;
  match r with
  | Exited rc _ => if Z.eqb rc 0 then ret tt else raise (CalledProcessError rc cmd)
  | LaunchFailed e => raise (OSError e)
  end.

(** The text a pipe opened with [universal_newlines=True] delivers for
    the bytes [out]: they are decoded, then every line end becomes a
    line feed ([data.replace('\r\n', '\n').replace('\r', '\n')]). *)
Definition read_text (out : string) : option string :=
  match locale_decode host out with
  | Some text => Some (Str.replace_cr (Str.replace_crlf text))
  | None => None
  end.

(** [subprocess.check_output(cmd, env=env, universal_newlines=True)]:
    the output is read, and decoded, before the return code is
    looked at. *)
Definition check_output (cmd : list string) (env : EnvRef) : Py string :=
  r <~ spawn cmd env ;;
  match r with
  | Exited rc out =>
      match read_text out with
      | Some text =>
          if Z.eqb rc 0 then ret text else raise (CalledProcessError rc cmd)
      | None => raise UnicodeDecodeError
      end
  | LaunchFailed e => raise (OSError e)
  end.

(** [os.getcwd()] *)
Definition os_getcwd : Py string :=
  if cwd_removed host then raise (OSError ENOENT) else ret (getcwd host).

(** [os.path.abspath(path)]: the working directory is only asked for
    when [path] is relative. *)
Definition os_path_abspath (path : string) : Py string :=
  if Path.isabs path then ret (Path.normpath path)
  else
    cwd <~ os_getcwd ;;
    ret (Path.normpath (Path.join cwd [path])).

Definition swiftpm (action swift_exec : string) (swiftpm_args : list string)
    (env : EnvRef) : Py unit :=
  let cmd := [swift_exec; action] ++ swiftpm_args in
  print (String.concat " " cmd) ;;;
  check_call cmd env.

Definition swiftpm_bin_path (swift_exec : string) (swiftpm_args : list string)
    (env : EnvRef) : Py string :=
  let cmd := [swift_exec; "build"; "--show-bin-path"] ++ swiftpm_args in
  print (String.concat " " cmd) ;;;
  out <~ check_output cmd env ;;
  ret (str_strip host out).

Definition get_swiftpm_options (args : Args) : list string :=
  let swiftpm_args :=
    [ "--package-path"; package_path args;
      "--build-path"; build_path args;
      "--configuration"; configuration args ] in
  let swiftpm_args :=
    if verbose args then swiftpm_args ++ ["--verbose"] else swiftpm_args in
  let swiftpm_args :=
    match sanitize args with
    | Some ((_ :: _) as sans) =>
        fold_left (fun acc san => acc ++ ["--sanitize=" +:+ san]) sans swiftpm_args
    | _ => swiftpm_args
    end in
  let swiftpm_args :=
    if negb (String.eqb (system host) "Darwin") then
      swiftpm_args ++
        [ "-Xcxx"; "-I"; "-Xcxx";
          Path.join (toolchain args) ["lib"; "swift"];
          "-Xcxx"; "-I"; "-Xcxx";
          Path.join (toolchain args) ["lib"; "swift"; "Block"] ]
    else swiftpm_args in
  swiftpm_args.

Definition handle_invocation (swift_exec : string) (args : Args) : Py unit :=
  let swiftpm_args := get_swiftpm_options args in
  let env := os_environ in
  env_setitem env "INDEXSTOREDB_TOOLCHAIN_BIN_PATH" (toolchain args) ;;;
  match ninja_bin args with
  | Some (String _ _ as nb) => env_setitem env "NINJA_BIN" nb
  | _ => ret tt
  end ;;;
  (if sanitize_has "address" args
   then env_setitem env "ASAN_OPTIONS" "detect_leaks=false"
   else ret tt) ;;;
  (if sanitize_has "undefined" args
   then
     let supp := Path.join (package_path args) ["Utilities"; "ubsan_supressions.supp"] in
     env_setitem env "UBSAN_OPTIONS" ("halt_on_error=true,suppressions=" +:+ supp)
   else ret tt) ;;;
  (if sanitize_has "thread" args
   then env_setitem env "INDEXSTOREDB_ENABLED_THREAD_SANITIZER" "1"
   else ret tt) ;;;
  print ("Cleaning " +:+ build_path args) ;;;
  shutil_rmtree (build_path args) true ;;;
  if String.eqb (action args) "build" then
    swiftpm "build" swift_exec swiftpm_args env
  else if String.eqb (action args) "test" then
    bin_path <~ swiftpm_bin_path swift_exec swiftpm_args env ;;
    let tests := Path.join bin_path ["isdb-tests"] in
    print ("Cleaning " +:+ tests) ;;;
    shutil_rmtree tests true ;;;
    swiftpm "test" swift_exec (swiftpm_args ++ ["--parallel"]) env
  else
    raise (AssertionError ("unknown action '" +:+ action args +:+ "'")).

(** [main], from the parsed [args] on. *)
Definition main (args : Args) : Py unit :=
  (if sanitize_truthy args && sanitize_all args
   then raise (AssertionError "cannot combine --sanitize with --sanitize-all")
   else ret tt) ;;;
  p <~ os_path_abspath (package_path args) ;;
  let args := set_package_path p args in
  p <~ os_path_abspath (build_path args) ;;
  let args := set_build_path p args in
  p <~ os_path_abspath (toolchain args) ;;
  let args := set_toolchain p args in
  let swift_exec :=
    if negb (Str.is_empty (toolchain args))
    then Path.join (toolchain args) ["bin"; "swift"]
    else "swift" in
  handle_invocation swift_exec args ;;;
  if sanitize_all args then
    let base := build_path args in
    print ("=== " +:+ action args +:+ " indexstore-db with asan ===") ;;;
    let args := set_sanitize (Some ["address"]) args in
    let args := set_build_path (Path.join base ["test-asan"]) args in
    handle_invocation swift_exec args ;;;
    print ("=== " +:+ action args +:+ " indexstore-db with tsan ===") ;;;
    let args := set_sanitize (Some ["thread"]) args in
    let args := set_build_path (Path.join base ["test-tsan"]) args in
    handle_invocation swift_exec args ;;;
    if negb (String.eqb (system host) "Linux") then
      print ("=== " +:+ action args +:+ " indexstore-db with ubsan ===") ;;;
      let args := set_sanitize (Some ["undefined"]) args in
      let args := set_build_path (Path.join base ["test-ubsan"]) args in
      handle_invocation swift_exec args
    else ret tt
  else ret tt.

End Script.

(** ** Auxiliary definitions for the statements *)

(** The environment [handle_invocation] leaves in [os.environ] when it
    starts from [e]: its assignments to [env], in order. *)
Definition invocation_environ (args : Args) (e : gmap string string)
    : gmap string string :=
  let e := <["INDEXSTOREDB_TOOLCHAIN_BIN_PATH" := toolchain args]> e in
  let e := match ninja_bin args with
           | Some (String _ _ as nb) => <["NINJA_BIN" := nb]> e
           | _ => e
           end in
  let e := if sanitize_has "address" args
           then <["ASAN_OPTIONS" := "detect_leaks=false"]> e else e in
  let e := if sanitize_has "undefined" args
           then <["UBSAN_OPTIONS" :=
                    "halt_on_error=true,suppressions=" +:+
                    Path.join (package_path args)
                              ["Utilities"; "ubsan_supressions.supp"]]> e
           else e in
  let e := if sanitize_has "thread" args
           then <["INDEXSTOREDB_ENABLED_THREAD_SANITIZER" := "1"]> e else e in
  e.

(** The overlay of [args]: the variables [handle_invocation] assigns,
    with their values. *)
Definition overlay (args : Args) : list (string * string) :=
  [("INDEXSTOREDB_TOOLCHAIN_BIN_PATH", toolchain args)]
  ++ match ninja_bin args with
     | Some (String _ _ as nb) => [("NINJA_BIN", nb)]
     | _ => []
     end
  ++ (if sanitize_has "address" args
      then [("ASAN_OPTIONS", "detect_leaks=false")] else [])
  ++ (if sanitize_has "undefined" args
      then [("UBSAN_OPTIONS",
             "halt_on_error=true,suppressions=" +:+
             Path.join (package_path args)
                       ["Utilities"; "ubsan_supressions.supp"])]
      else [])
  ++ (if sanitize_has "thread" args
      then [("INDEXSTOREDB_ENABLED_THREAD_SANITIZER", "1")] else []).

Definition with_environ (e : gmap string string) (w : World) : World :=
  mkWorld e (fs w) (events w).

(** What [handle_invocation] does after its assignments to [env]:
    the cleanup and the calls of the build tool. *)
Definition invocation_steps (host : Host) (swift_exec : string) (args : Args)
    : Py unit :=
  let swiftpm_args := get_swiftpm_options host args in
  let env := os_environ in
  print ("Cleaning " +:+ build_path args) ;;;
  shutil_rmtree (build_path args) true ;;;
  if String.eqb (action args) "build" then
    swiftpm host "build" swift_exec swiftpm_args env
  else if String.eqb (action args) "test" then
    bin_path <~ swiftpm_bin_path host swift_exec swiftpm_args env ;;
    let tests := Path.join bin_path ["isdb-tests"] in
    print ("Cleaning " +:+ tests) ;;;
    shutil_rmtree tests true ;;;
    swiftpm host "test" swift_exec (swiftpm_args ++ ["--parallel"]) env
  else
    raise (AssertionError ("unknown action '" +:+ action args +:+ "'")).

(** What [check_call] makes of the child's result. *)
Definition checked (cmd : list string) (r : SpawnResult) : Result unit :=
  match r with
  | Exited rc _ => if Z.eqb rc 0 then Ok tt else Raise (CalledProcessError rc cmd)
  | LaunchFailed e => Raise (OSError e)
  end.

(** What [check_output] makes of the child's result. *)
Definition checked_output (host : Host) (cmd : list string) (r : SpawnResult)
    : Result string :=
  match r with
  | Exited rc out =>
      match read_text host out with
      | Some text => if Z.eqb rc 0 then Ok text else Raise (CalledProcessError rc cmd)
      | None => Raise UnicodeDecodeError
      end
  | LaunchFailed e => Raise (OSError e)
  end.

(** The children whose output the script captures: those of
    [swiftpm_bin_path], which alone have [--show-bin-path] right after
    the verb. *)
Definition output_captured (cmd : list string) : bool :=
  match cmd with
  | _ :: _ :: flag :: _ => String.eqb flag "--show-bin-path"
  | _ => false
  end.

(** A child whose captured output is not text in the encoding of the
    locale. *)
Definition output_undecodable (host : Host) (e : Event) : bool :=
  match e with
  | EvSpawn cmd _ (Exited _ out) =>
      output_captured cmd
      && match locale_decode host out with Some _ => false | None => true end
  | _ => false
  end.

Definition all_decodable (host : Host) (evs : list Event) : bool :=
  forallb (fun e => negb (output_undecodable host e)) evs.

(** Some path of the request is relative, so that [main] has to ask
    for the working directory. *)
Definition cwd_needed (args : Args) : bool :=
  negb (Path.isabs (package_path args))
  || negb (Path.isabs (build_path args))
  || negb (Path.isabs (toolchain args)).

(** The events [w'] has on top of [w]. *)
Definition new_events (w w' : World) : list Event :=
  drop (List.length (events w)) (events w').

(** The environments handed to the children, in order. *)
Fixpoint spawn_envs (evs : list Event) : list (gmap string string) :=
  match evs with
  | [] => []
  | EvSpawn _ env _ :: r => env :: spawn_envs r
  | _ :: r => spawn_envs r
  end.

(** The command lines of the children, in order. *)
Fixpoint spawn_cmds (evs : list Event) : list (list string) :=
  match evs with
  | [] => []
  | EvSpawn cmd _ _ :: r => cmd :: spawn_cmds r
  | _ :: r => spawn_cmds r
  end.

(** The removals attempted, in order. *)
Fixpoint removals (evs : list Event) : list string :=
  match evs with
  | [] => []
  | EvRmtree p _ :: r => p :: removals r
  | _ :: r => removals r
  end.

(** A child that did not end with status 0. *)
Definition spawn_failed (e : Event) : bool :=
  match e with
  | EvSpawn _ _ (Exited rc _) => negb (Z.eqb rc 0)
  | EvSpawn _ _ (LaunchFailed _) => true
  | _ => false
  end.

Definition all_succeeded (evs : list Event) : bool :=
  forallb (fun e => negb (spawn_failed e)) evs.

(** A run that stops at the first failing child: after a normal return
    no child has failed; an exception of [subprocess] comes from the
    last event, and no child before it has failed; a decoding error
    comes from the last event, a child whose output is captured and
    cannot be decoded; an assertion is only raised where [P] holds, and
    no child has failed. *)
Definition stops_at_failure {A} (host : Host) (P : Prop) (evs : list Event)
    (r : Result A) : Prop :=
  match r with
  | Ok _ => all_succeeded evs = true
  | Raise (CalledProcessError rc cmd) =>
      exists pre env out,
        evs = pre ++ [EvSpawn cmd env (Exited rc out)]
        /\ rc <> 0%Z /\ all_succeeded pre = true
  | Raise (OSError e) =>
      exists pre cmd env,
        evs = pre ++ [EvSpawn cmd env (LaunchFailed e)]
        /\ all_succeeded pre = true
  | Raise UnicodeDecodeError =>
      exists pre cmd env rc out,
        evs = pre ++ [EvSpawn cmd env (Exited rc out)]
        /\ output_captured cmd = true
        /\ locale_decode host out = None
        /\ all_succeeded pre = true
  | Raise (AssertionError _) => P /\ all_succeeded evs = true
  end.

Definition disciplined {A} (host : Host) (P : Prop) (m : Py A) : Prop :=
  forall w, exists evs,
    events (snd (m w)) = events w ++ evs
    /\ stops_at_failure host P evs (fst (m w)).

Definition valid_action (a : string) : Prop := a = "build" \/ a = "test".

(** The flags of [get_swiftpm_options] that do not depend on the
    platform, and the search-path flags of the other platforms. *)
Definition sanitize_flags (args : Args) : list string :=
  match sanitize args with
  | Some sans => map (fun san => "--sanitize=" +:+ san) sans
  | None => []
  end.

Definition common_flags (args : Args) : list string :=
  [ "--package-path"; package_path args;
    "--build-path"; build_path args;
    "--configuration"; configuration args ]
  ++ (if verbose args then ["--verbose"] else [])
  ++ sanitize_flags args.

Definition search_path_flags (toolchain : string) : list string :=
  [ "-Xcxx"; "-I"; "-Xcxx"; Path.join toolchain ["lib"; "swift"];
    "-Xcxx"; "-I"; "-Xcxx"; Path.join toolchain ["lib"; "swift"; "Block"] ].

(** [l] ends with [suf]. *)
Definition list_ends_with (suf l : list string) : Prop :=
  exists pre, l = pre ++ suf.

(** The command lines of one invocation that runs to its end. *)
Definition invocation_cmds (host : Host) (swift_exec : string) (args : Args)
    : list (list string) :=
  let flags := get_swiftpm_options host args in
  if String.eqb (action args) "build" then
    [[swift_exec; "build"] ++ flags]
  else if String.eqb (action args) "test" then
    [ [swift_exec; "build"; "--show-bin-path"] ++ flags;
      [swift_exec; "test"] ++ flags ++ ["--parallel"] ]
  else [].

(** A computation that, when it returns normally, has started exactly
    the children [cmds], in this order. *)
Definition spawns {A} (cmds : list (list string)) (m : Py A) : Prop :=
  forall w a, fst (m w) = Ok a ->
    exists evs, events (snd (m w)) = events w ++ evs /\ spawn_cmds evs = cmds.

(** ** The sanitize-all matrix in the words of the specification *)

(** Sanitizers of the matrix with their short names, in order; the
    undefined-behaviour pass is left out on Linux. *)
Definition matrix (system : string) : list (string * string) :=
  [("address", "asan"); ("thread", "tsan")]
  ++ (if String.eqb system "Linux" then [] else [("undefined", "ubsan")]).

(** The request of one pass: only the sanitizer set and the build path
    differ from the base request. *)
Definition derived_request (base : Args) (san short : string) : Args :=
  mkArgs (action base) (package_path base) (toolchain base) (ninja_bin base)
         (Path.join (build_path base) ["test-" +:+ short])
         (configuration base) (Some [san]) (sanitize_all base) (verbose base).

Definition banner (action short : string) : string :=
  "=== " +:+ action +:+ " indexstore-db with " +:+ short +:+ " ===".

(** Banner, then the single-invocation executor, pass after pass. *)
Fixpoint run_matrix (host : Host) (swift_exec : string) (base : Args)
    (passes : list (string * string)) : Py unit :=
  match passes with
  | [] => ret tt
  | (san, short) :: rest =>
      print (banner (action base) short) ;;;
      handle_invocation host swift_exec (derived_request base san short) ;;;
      run_matrix host swift_exec base rest
  end.

(** The request after the canonicalisation of [main]. *)
Definition canonical (cwd : string) (args : Args) : Args :=
  mkArgs (action args) (Path.abspath cwd (package_path args))
         (Path.abspath cwd (toolchain args)) (ninja_bin args)
         (Path.abspath cwd (build_path args))
         (configuration args) (sanitize args) (sanitize_all args) (verbose args).

(** The executable [main] runs for a canonical request. *)
Definition swift_exec_of (base : Args) : string :=
  if negb (Str.is_empty (toolchain base))
  then Path.join (toolchain base) ["bin"; "swift"]
  else "swift".

(** ** Concrete hosts, worlds and requests *)

(** A build tool that ends with status [rc] whenever [flag] is on its
    command line, and with status 0 and [out] on its standard output
    otherwise. *)
Definition tool_failing_on (flag : string) (rc : Z) (out : string)
    : list Event -> list string -> gmap string string -> FS -> SpawnResult * FS :=
  fun _ cmd _ f =>
    if existsb (String.eqb flag) cmd then (Exited rc EmptyString, f)
    else (Exited 0 out, f).

Definition newline : string := String (Ascii.ascii_of_nat 10) EmptyString.

(** Decoding in a locale whose encoding is ASCII: bytes from 128 on
    are no text. *)
Definition ascii_decode (out : string) : option string :=
  if Str.is_ascii out then Some out else None.

(** A host with an ASCII locale, on which all text is ASCII. *)
Definition ascii_host (system cwd : string) (cwd_removed : bool)
    (tool : list Event -> list string -> gmap string string -> FS -> SpawnResult * FS)
    : Host :=
  mkHost system cwd cwd_removed ascii_decode Str.ascii_strip tool.

Definition ci_host (system flag : string) (rc : Z) : Host :=
  ascii_host system "/home/ci/indexstore-db" false
             (tool_failing_on flag rc ("/tmp/b/debug" +:+ newline)).

Definition fresh_world : World := mkWorld ∅ (mkFS ∅ ∅) [].

(** A world whose build directory exists and cannot be removed. *)
Definition locked_world : World :=
  mkWorld ∅ (mkFS {[ "/tmp/b" ]} {[ "/tmp/b" ]}) [].

Definition ci_args (action : string) (sanitize : option (list string))
    (sanitize_all : bool) : Args :=
  mkArgs action "." "/opt/toolchain/usr" None "/tmp/b" "debug"
         sanitize sanitize_all false.

(** ** Definitions for the further properties *)

(** The command lines [handle_invocation] builds. *)
Definition build_cmd (host : Host) (swift_exec : string) (args : Args) : list string :=
  [swift_exec; "build"] ++ get_swiftpm_options host args.

Definition discovery_cmd (host : Host) (swift_exec : string) (args : Args) : list string :=
  [swift_exec; "build"; "--show-bin-path"] ++ get_swiftpm_options host args.

Definition test_cmd (host : Host) (swift_exec : string) (args : Args) : list string :=
  [swift_exec; "test"] ++ get_swiftpm_options host args ++ ["--parallel"].

(** The traces one call of [handle_invocation] can leave, with its
    outcome: a build; a test whose discovery did not give a path; a
    test whose discovery printed [out], read as [text]; an action that
    is neither. *)
Inductive invocation_trace (host : Host) (se : string) (args : Args)
    (env : gmap string string) : list Event -> Result unit -> Prop :=
| trace_build err r :
    action args = "build" ->
    invocation_trace host se args env
      [ EvPrint ("Cleaning " +:+ build_path args);
        EvRmtree (build_path args) err;
        EvPrint (String.concat " " (build_cmd host se args));
        EvSpawn (build_cmd host se args) env r ]
      (checked (build_cmd host se args) r)
| trace_discovery_failed err r1 e :
    action args = "test" ->
    checked_output host (discovery_cmd host se args) r1 = Raise e ->
    invocation_trace host se args env
      [ EvPrint ("Cleaning " +:+ build_path args);
        EvRmtree (build_path args) err;
        EvPrint (String.concat " " (discovery_cmd host se args));
        EvSpawn (discovery_cmd host se args) env r1 ]
      (Raise e)
| trace_test err1 out text err2 r2 :
    action args = "test" ->
    read_text host out = Some text ->
    invocation_trace host se args env
      [ EvPrint ("Cleaning " +:+ build_path args);
        EvRmtree (build_path args) err1;
        EvPrint (String.concat " " (discovery_cmd host se args));
        EvSpawn (discovery_cmd host se args) env (Exited 0 out);
        EvPrint ("Cleaning " +:+ Path.join (str_strip host text) ["isdb-tests"]);
        EvRmtree (Path.join (str_strip host text) ["isdb-tests"]) err2;
        EvPrint (String.concat " " (test_cmd host se args));
        EvSpawn (test_cmd host se args) env r2 ]
      (checked (test_cmd host se args) r2)
| trace_unknown err :
    action args <> "build" -> action args <> "test" ->
    invocation_trace host se args env
      [ EvPrint ("Cleaning " +:+ build_path args);
        EvRmtree (build_path args) err ]
      (Raise (AssertionError ("unknown action '" +:+ action args +:+ "'"))).

(** Requests that differ from [base] at most in the sanitizer set and
    the build path, as all requests of one run of [main] do. *)
Definition same_base (base a : Args) : Prop :=
  action a = action base /\ package_path a = package_path base
  /\ toolchain a = toolchain base /\ ninja_bin a = ninja_bin base
  /\ configuration a = configuration base
  /\ sanitize_all a = sanitize_all base /\ verbose a = verbose base.

(** A computation whose new events always satisfy [Q]. *)
Definition run_of {A} (Q : list Event -> Prop) (m : Py A) : Prop :=
  forall w, exists evs, events (snd (m w)) = events w ++ evs /\ Q evs.

Definition concat_closed (Q : list Event -> Prop) : Prop :=
  Q [] /\ forall a b, Q a -> Q b -> Q (a ++ b).

(** Every child is started right after a line that is its command line
    joined with spaces; [prev] is the line printed just before, if the
    last event was a print. *)
Fixpoint echoed_after (prev : option string) (evs : list Event) : bool :=
  match evs with
  | [] => true
  | EvSpawn cmd _ _ :: rest =>
      match prev with
      | Some line => String.eqb line (String.concat " " cmd)
      | None => false
      end && echoed_after None rest
  | EvPrint line :: rest => echoed_after (Some line) rest
  | EvRmtree _ _ :: rest => echoed_after None rest
  end.

Definition echoed (evs : list Event) : Prop := echoed_after None evs = true.

(** The five variables the script ever assigns. *)
Definition script_variables : list string :=
  [ "INDEXSTOREDB_TOOLCHAIN_BIN_PATH"; "NINJA_BIN"; "ASAN_OPTIONS";
    "UBSAN_OPTIONS"; "INDEXSTOREDB_ENABLED_THREAD_SANITIZER" ].

(** What a run may do to the environment: leave every variable
    outside the five alone, and unset none. *)
Definition environ_step (e e' : gmap string string) : Prop :=
  (forall k, k ∉ script_variables -> e' !! k = e !! k)
  /\ (forall k, is_Some (e !! k) -> is_Some (e' !! k)).

(** A computation that relates the environment it finds to the one it
    leaves by [R], whatever its outcome. *)
Definition environ_related {A} (R : relation (gmap string string)) (m : Py A) : Prop :=
  forall w, R (environ w) (environ (snd (m w))).

(** A computation that, when it returns normally, leaves [f] of the
    environment it found. *)
Definition leaves {A} (f : gmap string string -> gmap string string) (m : Py A) : Prop :=
  forall w a, fst (m w) = Ok a -> environ (snd (m w)) = f (environ w).

(** A computation under which a property [I] of the environment
    sticks: if the environment it finds has [I], all its children
    receive an environment with [I] and it leaves one with [I]; and as
    soon as one of its children has received an environment with [I],
    so do all later children and the environment it leaves. *)
Definition sticky {A} (I : gmap string string -> Prop) (m : Py A) : Prop :=
  forall w, exists evs,
    events (snd (m w)) = events w ++ evs
    /\ (I (environ w) ->
        Forall I (spawn_envs evs) /\ I (environ (snd (m w))))
    /\ (forall pre e1 post,
          spawn_envs evs = pre ++ e1 :: post -> I e1 ->
          Forall I post /\ I (environ (snd (m w)))).

(** The requests of a run of [main], in order. *)
Definition run_requests (host : Host) (args : Args) : list Args :=
  let base := canonical (getcwd host) args in
  base ::
  (if sanitize_all args
   then map (fun p => derived_request base (fst p) (snd p)) (matrix (system host))
   else []).

(** A host whose build tool prints nothing but a newline. *)
Definition silent_host (system : string) : Host :=
  ascii_host system "/home/ci/indexstore-db" false
             (tool_failing_on "--fail" 1 newline).

(** A host whose build tool cannot be started. *)
Definition broken_host (system : string) : Host :=
  ascii_host system "/home/ci/indexstore-db" false
             (fun _ _ _ f => (LaunchFailed ENOENT, f)).

(** A host whose build tool ends a path with a byte that is no text,
    and exits with [rc]. *)
Definition garbled_host (system : string) (rc : Z) : Host :=
  ascii_host system "/home/ci/indexstore-db" false
             (fun _ _ _ f =>
                (Exited rc ("/tmp/b/" +:+ String (Ascii.ascii_of_nat 255) newline), f)).

(** A host whose working directory has been removed. *)
Definition lost_host (system : string) : Host :=
  ascii_host system "/home/ci/indexstore-db" true
             (tool_failing_on "--fail" 1 ("/tmp/b/debug" +:+ newline)).

(** * Properties *)

(** ** Sanity checks of the path model *)

Example abspath_dot : Path.abspath "/home/ci/indexstore-db" "." = "/home/ci/indexstore-db".
Proof. reflexivity. Qed.

Example abspath_dot_build :
  Path.abspath "/home/ci/indexstore-db" ".build" = "/home/ci/indexstore-db/.build".
Proof. reflexivity. Qed.

Example abspath_dotdot :
  Path.abspath "/home/ci/indexstore-db" "../tc//usr/./" = "/home/ci/tc/usr".
Proof. reflexivity. Qed.

Example abspath_two_slashes : Path.abspath "/" "//a/../b" = "//b".
Proof. reflexivity. Qed.

Example join_root : Path.join "/" ["test-asan"] = "/test-asan".
Proof. reflexivity. Qed.

Example strip_output :
  Str.ascii_strip ("  /tmp/b/debug" +:+ newline) = "/tmp/b/debug".
Proof. reflexivity. Qed.

(** Line ends of every kind become line feeds, as in
    ['a\r\r\nb\rc\n'] read with universal newlines. *)
Example universal_newlines :
  let cr := String Str.CR EmptyString in
  Str.replace_cr (Str.replace_crlf
    ("a" +:+ cr +:+ cr +:+ newline +:+ "b" +:+ cr +:+ "c" +:+ newline))
  = "a" +:+ newline +:+ newline +:+ "b" +:+ newline +:+ "c" +:+ newline.
Proof. reflexivity. Qed.

(** ** Strings and paths *)

Lemma startswith_sep_app s t :
  Str.startswith_sep s = true -> Str.startswith_sep (s +:+ t) = true.
Proof. destruct s as [|c s]; simpl; [discriminate | auto]. Qed.

Lemma join2_isabs a b :
  Path.isabs a = true -> Path.isabs (Path.join2 a b) = true.
Proof.
  unfold Path.isabs, Path.join2. intros Ha.
  destruct (Str.startswith_sep b) eqn:Hb; [exact Hb |].
  destruct (Str.is_empty a || Str.endswith_sep a);
    now apply startswith_sep_app.
Qed.

Lemma join_isabs p : forall a,
  Path.isabs a = true -> Path.isabs (Path.join a p) = true.
Proof.
  unfold Path.join.
  induction p as [|b p IH]; intros a Ha; simpl; [exact Ha |].
  apply IH. now apply join2_isabs.
Qed.

Lemma normpath_isabs p :
  Path.isabs p = true -> Path.isabs (Path.normpath p) = true.
Proof.
  unfold Path.isabs, Path.normpath. intros Hp.
  destruct p as [|c p]; [discriminate |].
  replace (String.eqb (String c p) EmptyString) with false by reflexivity.
  unfold Path.initial_slashes. rewrite Hp.
  destruct (String.prefix "//" (String c p) && negb (String.prefix "///" (String c p)));
    reflexivity.
Qed.

Lemma abspath_isabs cwd p :
  Path.isabs cwd = true -> Path.isabs (Path.abspath cwd p) = true.
Proof.
  intros Hc. unfold Path.abspath. apply normpath_isabs.
  destruct (Path.isabs p) eqn:Hp; [exact Hp |].
  now apply join_isabs.
Qed.

Lemma string_app_cons c (s t : string) : String c s +:+ t = String c (s +:+ t).
Proof. reflexivity. Qed.

Lemma string_app_assoc (a b c : string) : (a +:+ b) +:+ c = a +:+ (b +:+ c).
Proof.
  induction a as [|x a IH]; [reflexivity |].
  rewrite !string_app_cons. now f_equal.
Qed.

Lemma endswith_sep_cons x r :
  r <> EmptyString -> Str.endswith_sep (String x r) = Str.endswith_sep r.
Proof. destruct r; [congruence | reflexivity]. Qed.

Lemma endswith_sep_app_nonempty s c t :
  Str.endswith_sep (s +:+ String c t) = Str.endswith_sep (String c t).
Proof.
  induction s as [|x s IH]; [reflexivity |].
  rewrite string_app_cons, endswith_sep_cons; [exact IH |].
  destruct s; discriminate.
Qed.

Lemma is_empty_app_nonempty s c t : Str.is_empty (s +:+ String c t) = false.
Proof. destruct s; reflexivity. Qed.



(** On a non-empty path without a trailing separator, [join] puts
    exactly one separator before a relative component. *)
Lemma join2_plain a c t :
  Str.is_empty a = false -> Str.endswith_sep a = false ->
  Ascii.eqb c "/" = false ->
  Path.join2 a (String c t) = a +:+ String "/" (String c t).
Proof.
  intros He Hs Hc. unfold Path.join2. cbn [Str.startswith_sep].
  now rewrite Hc, He, Hs.
Qed.

Lemma join_lib_swift tc :
  Str.is_empty tc = false -> Str.endswith_sep tc = false ->
  Path.join tc ["lib"; "swift"] = tc +:+ "/lib/swift"
  /\ Path.join tc ["lib"; "swift"; "Block"] = tc +:+ "/lib/swift/Block".
Proof.
  intros He Hs. unfold Path.join. cbn [fold_left].
  rewrite (join2_plain tc "l" "ib" He Hs eq_refl).
  assert (H1 : Path.join2 (tc +:+ "/lib") "swift" = tc +:+ "/lib/swift").
  { rewrite join2_plain;
      [| apply is_empty_app_nonempty
       | now rewrite endswith_sep_app_nonempty
       | reflexivity].
    now rewrite string_app_assoc. }
  rewrite H1. split; [reflexivity |].
  rewrite join2_plain;
    [| apply is_empty_app_nonempty
     | now rewrite endswith_sep_app_nonempty
     | reflexivity].
  now rewrite string_app_assoc.
Qed.

(** ** Flags *)

Lemma fold_left_snoc_map {A B} (f : B -> A) (l : list B) : forall acc : list A,
  fold_left (fun acc x => acc ++ [f x]) l acc = acc ++ map f l.
Proof.
  induction l as [|x l IH]; intros acc; cbn [fold_left map].
  - now rewrite app_nil_r.
  - now rewrite IH, <- app_assoc.
Qed.

Lemma get_swiftpm_options_eq host args :
  get_swiftpm_options host args =
  common_flags args
  ++ (if negb (String.eqb (system host) "Darwin")
      then search_path_flags (toolchain args) else []).
Proof.
  unfold get_swiftpm_options, common_flags, sanitize_flags, search_path_flags.
  assert (Hs :
    match sanitize args with
    | Some ((_ :: _) as sans) =>
        fold_left (fun acc san => acc ++ ["--sanitize=" +:+ san]) sans
          (if verbose args
           then ["--package-path"; package_path args; "--build-path";
                 build_path args; "--configuration"; configuration args]
                ++ ["--verbose"]
           else ["--package-path"; package_path args; "--build-path";
                 build_path args; "--configuration"; configuration args])
    | _ =>
        if verbose args
        then ["--package-path"; package_path args; "--build-path";
              build_path args; "--configuration"; configuration args]
             ++ ["--verbose"]
        else ["--package-path"; package_path args; "--build-path";
              build_path args; "--configuration"; configuration args]
    end
    = ["--package-path"; package_path args; "--build-path";
       build_path args; "--configuration"; configuration args]
      ++ (if verbose args then ["--verbose"] else [])
      ++ match sanitize args with
         | Some sans => map (fun san => "--sanitize=" +:+ san) sans
         | None => []
         end).
  { destruct (sanitize args) as [[|s sans]|].
    - destruct (verbose args); reflexivity.
    - rewrite fold_left_snoc_map. destruct (verbose args); reflexivity.
    - destruct (verbose args); reflexivity. }
  cbv zeta. rewrite Hs.
  destruct (negb (String.eqb (system host) "Darwin")); [reflexivity |].
  now rewrite app_nil_r.
Qed.

(** A flag that starts with two dashes. *)
Lemma sanitize_flag_dashes san : String.prefix "--" ("--sanitize=" +:+ san) = true.
Proof. reflexivity. Qed.

Lemma optional_flags_dashes args :
  Forall (fun s => String.prefix "--" s = true)
         ((if verbose args then ["--verbose"] else []) ++ sanitize_flags args).
Proof.
  apply Forall_app. split.
  - destruct (verbose args); repeat constructor.
  - unfold sanitize_flags. destruct (sanitize args) as [l|]; [| constructor].
    induction l; cbn [map]; constructor; auto using sanitize_flag_dashes.
Qed.

(** The platform-independent flags never end with the search-path
    flags, whatever the request holds. *)
Lemma common_flags_no_search_path args tc :
  ~ list_ends_with (search_path_flags tc) (common_flags args).
Proof.
  intros [pre E]. apply (f_equal (@rev string)) in E.
  unfold common_flags, search_path_flags in E.
  pose proof (optional_flags_dashes args) as Hd.
  apply Forall_rev in Hd.
  set (opt := (if verbose args then ["--verbose"] else []) ++ sanitize_flags args) in *.
  rewrite !rev_app_distr in E. cbn [rev app] in E.
  destruct (rev opt) as [|t0 [|t1 t]]; cbn [app] in E.
  - discriminate.
  - discriminate.
  - inversion Hd as [|? ? _ Hd']. inversion Hd' as [|? ? H1 _].
    injection E as _ E1 _. subst t1. discriminate.
Qed.

(** ** One invocation, step by step *)

Lemma handle_invocation_split host se args w :
  handle_invocation host se args w =
  invocation_steps host se args
    (with_environ (invocation_environ args (environ w)) w).
Proof.
  unfold handle_invocation, invocation_steps, invocation_environ, with_environ.
  unfold bind at 1 2 3 4 5. unfold env_setitem, ret.
  destruct (ninja_bin args) as [[|c nb]|];
    destruct (sanitize_has "address" args);
    destruct (sanitize_has "undefined" args);
    destruct (sanitize_has "thread" args); reflexivity.
Qed.

Lemma bind_ok {A B} (m : Py A) (k : A -> Py B) w a w' :
  m w = (Ok a, w') -> bind m k w = k a w'.
Proof. unfold bind. now intros ->. Qed.

Lemma bind_raise {A B} (m : Py A) (k : A -> Py B) w e w' :
  m w = (Raise e, w') -> bind m k w = (Raise e, w').
Proof. unfold bind. now intros ->. Qed.

Lemma print_run line w :
  print line w = (Ok tt, mkWorld (environ w) (fs w) (events w ++ [EvPrint line])).
Proof. reflexivity. Qed.

Lemma rmtree_run path w :
  shutil_rmtree path true w =
  (Ok tt,
   mkWorld (environ w) (fst (os_rmtree path (fs w)))
     (events w ++ [EvRmtree path (snd (os_rmtree path (fs w)))])).
Proof.
  unfold shutil_rmtree. destruct (os_rmtree path (fs w)) as [f [err|]]; reflexivity.
Qed.

Lemma swiftpm_run host verb se flags w :
  let cmd := [se; verb] ++ flags in
  exists r f,
    swiftpm host verb se flags os_environ w =
    (checked cmd r,
     mkWorld (environ w) f
       (events w ++ [EvPrint (String.concat " " cmd); EvSpawn cmd (environ w) r])).
Proof.
  intros cmd. unfold swiftpm. fold cmd.
  rewrite (bind_ok _ _ _ _ _ (print_run _ w)).
  unfold check_call, spawn, bind, env_read. cbn [environ fs events].
  destruct (tool host _ cmd (environ w) (fs w)) as [r f].
  exists r, f. rewrite <- app_assoc. cbn [app].
  destruct r as [rc out|err]; cbn [checked]; [destruct (Z.eqb rc 0) |]; reflexivity.
Qed.

(** What [swiftpm_bin_path] returns for a result of the child. *)
Lemma swiftpm_bin_path_run host se flags w :
  let cmd := [se; "build"; "--show-bin-path"] ++ flags in
  exists r f,
    swiftpm_bin_path host se flags os_environ w =
    (match checked_output host cmd r with
     | Ok text => Ok (str_strip host text)
     | Raise e => Raise e
     end,
     mkWorld (environ w) f
       (events w ++ [EvPrint (String.concat " " cmd); EvSpawn cmd (environ w) r])).
Proof.
  intros cmd. unfold swiftpm_bin_path. fold cmd.
  rewrite (bind_ok _ _ _ _ _ (print_run _ w)).
  unfold check_output, checked_output, spawn, bind, env_read, ret, raise.
  cbn [environ fs events].
  destruct (tool host _ cmd (environ w) (fs w)) as [r f].
  exists r, f. rewrite <- app_assoc. cbn [app].
  destruct r as [rc out|err]; [| reflexivity].
  destruct (read_text host out) as [text|]; [| reflexivity].
  destruct (Z.eqb rc 0); reflexivity.
Qed.

Lemma read_text_none host out :
  read_text host out = None -> locale_decode host out = None.
Proof. unfold read_text. destruct (locale_decode host out); [discriminate | auto]. Qed.

Lemma read_text_some host out text :
  read_text host out = Some text ->
  exists t, locale_decode host out = Some t
            /\ text = Str.replace_cr (Str.replace_crlf t).
Proof.
  unfold read_text. destruct (locale_decode host out) as [t|]; [| discriminate].
  intros [= <-]. eauto.
Qed.

(** [check_output] returns a text only for a child that exited with 0
    and printed one. *)
Lemma checked_output_ok host cmd r text :
  checked_output host cmd r = Ok text ->
  exists out, r = Exited 0 out /\ read_text host out = Some text.
Proof.
  destruct r as [rc out|err]; cbn [checked_output]; [| discriminate].
  destruct (read_text host out) as [t|] eqn:Ht; [| discriminate].
  destruct (Z.eqb_spec rc 0) as [->|]; [| discriminate].
  intros [= ->]. eauto.
Qed.

(** What makes it raise. *)
Lemma checked_output_raise host cmd r e :
  checked_output host cmd r = Raise e ->
  match r with
  | Exited rc out =>
      (e = UnicodeDecodeError /\ locale_decode host out = None)
      \/ (e = CalledProcessError rc cmd /\ rc <> 0%Z
          /\ is_Some (locale_decode host out))
  | LaunchFailed err => e = OSError err
  end.
Proof.
  destruct r as [rc out|err]; cbn [checked_output]; [| now intros [= <-]].
  destruct (read_text host out) as [t|] eqn:Ht.
  - destruct (Z.eqb_spec rc 0) as [->|Hrc]; [discriminate |].
    intros [= <-]. right. repeat split; [exact Hrc |].
    destruct (read_text_some _ _ _ Ht) as (t0 & -> & _). eauto.
  - intros [= <-]. left. split; [reflexivity | now apply read_text_none].
Qed.

Lemma invocation_steps_build host se args w :
  action args = "build" ->
  let cmd := [se; "build"] ++ get_swiftpm_options host args in
  exists r f,
    invocation_steps host se args w =
    (checked cmd r,
     mkWorld (environ w) f
       (events w ++
        [ EvPrint ("Cleaning " +:+ build_path args);
          EvRmtree (build_path args) (snd (os_rmtree (build_path args) (fs w)));
          EvPrint (String.concat " " cmd);
          EvSpawn cmd (environ w) r ])).
Proof.
  intros Ha cmd. unfold invocation_steps. rewrite Ha.
  change (String.eqb "build" "build") with true. cbv iota.
  rewrite (bind_ok _ _ _ _ _ (print_run _ w)).
  rewrite (bind_ok _ _ _ _ _ (rmtree_run _ _)).
  match goal with
  | |- context [swiftpm host "build" se ?fl os_environ ?w1] =>
      destruct (swiftpm_run host "build" se fl w1) as (r & f & ->)
  end.
  exists r, f. cbn [environ events fs]. rewrite <- !app_assoc. reflexivity.
Qed.

Lemma invocation_steps_test host se args w :
  action args = "test" ->
  let flags := get_swiftpm_options host args in
  let disc := [se; "build"; "--show-bin-path"] ++ flags in
  let test := [se; "test"] ++ flags ++ ["--parallel"] in
  exists r1 f1,
    let head :=
      [ EvPrint ("Cleaning " +:+ build_path args);
        EvRmtree (build_path args) (snd (os_rmtree (build_path args) (fs w)));
        EvPrint (String.concat " " disc);
        EvSpawn disc (environ w) r1 ] in
    match checked_output host disc r1 with
    | Ok text =>
        let tests := Path.join (str_strip host text) ["isdb-tests"] in
        exists r2 f2,
          invocation_steps host se args w =
          (checked test r2,
           mkWorld (environ w) f2
             (events w ++ head ++
              [ EvPrint ("Cleaning " +:+ tests);
                EvRmtree tests (snd (os_rmtree tests f1));
                EvPrint (String.concat " " test);
                EvSpawn test (environ w) r2 ]))
    | Raise e =>
        invocation_steps host se args w =
        (Raise e, mkWorld (environ w) f1 (events w ++ head))
    end.
Proof.
  intros Ha flags disc test.
  remember (invocation_steps host se args w) as R eqn:HR.
  unfold invocation_steps in HR. rewrite Ha in HR.
  change (String.eqb "test" "build") with false in HR.
  change (String.eqb "test" "test") with true in HR. cbv iota zeta in HR.
  rewrite (bind_ok _ _ _ _ _ (print_run _ w)) in HR.
  rewrite (bind_ok _ _ _ _ _ (rmtree_run _ _)) in HR.
  cbn [environ fs events] in HR. rewrite <- app_assoc in HR. cbn [app] in HR.
  fold flags in HR.
  match type of HR with
  | _ = bind _ _ ?w1 =>
      destruct (swiftpm_bin_path_run host se flags w1) as (r1 & f1 & H1)
  end.
  fold disc in H1. cbn [environ fs events] in H1.
  rewrite <- app_assoc in H1. cbn [app] in H1.
  exists r1, f1.
  destruct (checked_output host disc r1) as [text|e].
  - rewrite (bind_ok _ _ _ _ _ H1) in HR.
    rewrite (bind_ok _ _ _ _ _ (print_run _ _)) in HR.
    rewrite (bind_ok _ _ _ _ _ (rmtree_run _ _)) in HR.
    cbn [environ fs events] in HR.
    match type of HR with
    | _ = swiftpm host "test" se ?fl os_environ ?w1 =>
        destruct (swiftpm_run host "test" se fl w1) as (r2 & f2 & H2)
    end.
    rewrite H2 in HR. exists r2, f2. subst R. cbn [environ events fs].
    rewrite <- !app_assoc. reflexivity.
  - rewrite (bind_raise _ _ _ _ _ H1) in HR. subst R. reflexivity.
Qed.

Lemma invocation_steps_unknown host se args w :
  action args <> "build" -> action args <> "test" ->
  invocation_steps host se args w =
  (Raise (AssertionError ("unknown action '" +:+ action args +:+ "'")),
   mkWorld (environ w) (fst (os_rmtree (build_path args) (fs w)))
     (events w ++
      [ EvPrint ("Cleaning " +:+ build_path args);
        EvRmtree (build_path args) (snd (os_rmtree (build_path args) (fs w))) ])).
Proof.
  intros Hb Ht. unfold invocation_steps.
  apply String.eqb_neq in Hb, Ht. rewrite Hb, Ht.
  rewrite (bind_ok _ _ _ _ _ (print_run _ w)).
  rewrite (bind_ok _ _ _ _ _ (rmtree_run _ _)).
  unfold raise. cbn [environ events fs]. rewrite <- !app_assoc. reflexivity.
Qed.

(** A failing [check_output] fails as [check_call] would, unless it
    is the decoding that fails. *)
Lemma checked_output_raise_outcome host cmd r e :
  checked_output host cmd r = Raise e ->
  @Raise unit e = checked cmd r
  \/ exists rc out,
       r = Exited rc out /\ locale_decode host out = None
       /\ e = UnicodeDecodeError.
Proof.
  intros H. apply checked_output_raise in H.
  destruct r as [rc out|err].
  - destruct H as [[-> Hd]|(-> & Hrc & _)]; [right; eauto | left].
    cbn [checked]. apply Z.eqb_neq in Hrc. now rewrite Hrc.
  - subst e. now left.
Qed.

(** ** [main] as a sequence of invocations *)

Lemma bind_ext {A B} (m : Py A) (k1 k2 : A -> Py B) w :
  (forall a w', k1 a w' = k2 a w') -> bind m k1 w = bind m k2 w.
Proof. intros H. unfold bind. destruct (m w) as [[a|e] w']; auto. Qed.

Lemma bind_ret_tt (m : Py unit) w : bind m (fun _ => ret tt) w = m w.
Proof. unfold bind, ret. destruct (m w) as [[[]|e] w']; reflexivity. Qed.

(** [os.path.abspath] raises only for a relative path in a working
    directory that is gone, and touches nothing. *)
Lemma os_path_abspath_run host path w :
  os_path_abspath host path w =
  if negb (Path.isabs path) && cwd_removed host
  then (Raise (OSError ENOENT), w)
  else (Ok (Path.abspath (getcwd host) path), w).
Proof.
  unfold os_path_abspath, os_getcwd, Path.abspath, bind, ret, raise.
  destruct (Path.isabs path); [reflexivity |].
  destruct (cwd_removed host); reflexivity.
Qed.

Lemma main_eq host args w :
  let base := canonical (getcwd host) args in
  let se := swift_exec_of base in
  main host args w =
  if sanitize_truthy args && sanitize_all args
  then (Raise (AssertionError "cannot combine --sanitize with --sanitize-all"), w)
  else if cwd_removed host && cwd_needed args
  then (Raise (OSError ENOENT), w)
  else bind (handle_invocation host se base)
            (fun _ => if sanitize_all args
                      then run_matrix host se base (matrix (system host))
                      else ret tt) w.
Proof.
  intros base se. subst base se. unfold main.
  destruct (sanitize_truthy args && sanitize_all args); [reflexivity |].
  unfold bind at 1. unfold ret at 1.
  destruct args as [a pp tc nb bp cfg san sa v].
  cbv beta iota zeta delta
    [canonical swift_exec_of derived_request cwd_needed
     set_toolchain set_build_path set_package_path set_sanitize
     action package_path toolchain ninja_bin build_path configuration
     sanitize sanitize_all verbose].
  unfold bind at 1. rewrite os_path_abspath_run.
  destruct (Path.isabs pp) eqn:Hpp; destruct (cwd_removed host) eqn:Hcw;
    cbn [negb andb orb]; try reflexivity;
    (unfold bind at 1; rewrite os_path_abspath_run, Hcw;
     destruct (Path.isabs bp) eqn:Hbp; cbn [negb andb orb]; try reflexivity;
     unfold bind at 1; rewrite os_path_abspath_run, Hcw;
     destruct (Path.isabs tc) eqn:Htc; cbn [negb andb orb]; try reflexivity).
  all: apply bind_ext; intros _ w1.
  all: destruct sa; [| reflexivity].
  all: unfold matrix.
  all: destruct (String.eqb (system host) "Linux"); cbn [negb app run_matrix];
    [reflexivity |].
  all: apply bind_ext; intros _ w2; apply bind_ext; intros _ w3.
  all: apply bind_ext; intros _ w4; apply bind_ext; intros _ w5.
  all: apply bind_ext; intros _ w6; symmetry; apply bind_ret_tt.
Qed.

Lemma main_proceeds host args w :
  sanitize_truthy args && sanitize_all args = false ->
  cwd_removed host && cwd_needed args = false ->
  let base := canonical (getcwd host) args in
  let se := swift_exec_of base in
  main host args w =
  bind (handle_invocation host se base)
       (fun _ => if sanitize_all args
                 then run_matrix host se base (matrix (system host))
                 else ret tt) w.
Proof. intros Hc Hl. cbv zeta. now rewrite main_eq, Hc, Hl. Qed.

(** ** Stopping at the first failure *)

Lemma all_succeeded_app a b :
  all_succeeded (a ++ b) = all_succeeded a && all_succeeded b.
Proof. apply forallb_app. Qed.

Lemma stops_checked {P : Prop} host pre cmd env r :
  all_succeeded pre = true ->
  stops_at_failure host P (pre ++ [EvSpawn cmd env r]) (checked cmd r).
Proof.
  intros Hpre. destruct r as [rc out|err]; cbn [checked].
  - destruct (Z.eqb rc 0) eqn:Hrc; cbn [stops_at_failure].
    + rewrite all_succeeded_app, Hpre. cbn. now rewrite Hrc.
    + exists pre, env, out. repeat split; auto.
      intros ->. discriminate.
  - cbn [stops_at_failure]. now exists pre, cmd, env.
Qed.

Lemma stops_checked_output {P : Prop} host pre cmd env r e :
  output_captured cmd = true ->
  all_succeeded pre = true ->
  checked_output host cmd r = Raise e ->
  stops_at_failure host P (pre ++ [EvSpawn cmd env r]) (@Raise unit e).
Proof.
  intros Hcap Hpre H. apply checked_output_raise in H.
  destruct r as [rc out|err].
  - destruct H as [[-> Hd]|(-> & Hrc & _)]; cbn [stops_at_failure].
    + now exists pre, cmd, env, rc, out.
    + now exists pre, env, out.
  - subst e. cbn [stops_at_failure]. now exists pre, cmd, env.
Qed.

(** A run that stops at failures, none of whose children has failed
    or printed what cannot be decoded, and where no assertion can
    fail, returns normally. *)
Lemma stops_quietly {A} host (P : Prop) evs (r : Result A) :
  stops_at_failure host P evs r -> ~ P ->
  all_succeeded evs = true -> all_decodable host evs = true ->
  exists a, r = Ok a.
Proof.
  intros Hs HP Hall Hdec.
  destruct r as [a|[rc cmd|msg|err|]]; cbn [stops_at_failure] in Hs.
  - eauto.
  - destruct Hs as (pre & env & out & -> & Hrc & _).
    rewrite all_succeeded_app in Hall. cbn in Hall.
    apply Z.eqb_neq in Hrc. rewrite Hrc in Hall. cbn in Hall.
    rewrite andb_false_r in Hall. discriminate.
  - tauto.
  - destruct Hs as (pre & cmd & env & -> & _).
    rewrite all_succeeded_app in Hall. cbn in Hall.
    rewrite andb_false_r in Hall. discriminate.
  - destruct Hs as (pre & cmd & env & rc & out & -> & Hcap & Hd & _).
    unfold all_decodable in Hdec. rewrite forallb_app in Hdec.
    cbn [forallb output_undecodable] in Hdec.
    rewrite Hcap, Hd in Hdec. cbn in Hdec.
    rewrite andb_false_r in Hdec. discriminate.
Qed.

Lemma disciplined_ret {A} host P (a : A) : disciplined host P (ret a).
Proof. intros w. exists []. cbn. now rewrite app_nil_r. Qed.

Lemma disciplined_print host P line : disciplined host P (print line).
Proof. intros w. now exists [EvPrint line]. Qed.


Lemma disciplined_bind {A B} host P (m : Py A) (k : A -> Py B) :
  disciplined host P m -> (forall a, disciplined host P (k a)) ->
  disciplined host P (bind m k).
Proof.
  intros Hm Hk w. destruct (Hm w) as (evs1 & He1 & Hs1).
  unfold bind. destruct (m w) as [[a|e] w1]; cbn [fst snd] in *.
  - destruct (Hk a w1) as (evs2 & He2 & Hs2).
    exists (evs1 ++ evs2). split.
    + now rewrite He2, He1, app_assoc.
    + destruct (fst (k a w1)) as [b|[rc cmd|msg|err|]]; cbn [stops_at_failure] in *.
      * now rewrite all_succeeded_app, Hs1, Hs2.
      * destruct Hs2 as (pre & env & out & -> & Hrc & Hpre).
        exists (evs1 ++ pre), env, out. rewrite all_succeeded_app, Hs1, Hpre.
        now rewrite app_assoc.
      * destruct Hs2 as [HP Hs2]. now rewrite all_succeeded_app, Hs1, Hs2.
      * destruct Hs2 as (pre & cmd & env & -> & Hpre).
        exists (evs1 ++ pre), cmd, env. rewrite all_succeeded_app, Hs1, Hpre.
        now rewrite app_assoc.
      * destruct Hs2 as (pre & cmd & env & rc & out & -> & Hcap & Hd & Hpre).
        exists (evs1 ++ pre), cmd, env, rc, out.
        rewrite all_succeeded_app, Hs1, Hpre. now rewrite app_assoc.
  - exists evs1. split; [exact He1 | exact Hs1].
Qed.

Lemma disciplined_handle_invocation host se args :
  disciplined host (~ valid_action (action args)) (handle_invocation host se args).
Proof.
  intros w. rewrite handle_invocation_split.
  set (w0 := with_environ (invocation_environ args (environ w)) w).
  change (events w) with (events w0).
  destruct (String.eqb_spec (action args) "build") as [Hb|Hb];
    [| destruct (String.eqb_spec (action args) "test") as [Ht|Ht]].
  - destruct (invocation_steps_build host se args w0 Hb) as (r & f & ->).
    eexists. split; [reflexivity |].
    cbn [fst]. now apply (stops_checked host [_; _; _]).
  - destruct (invocation_steps_test host se args w0 Ht) as (r1 & f1 & H).
    cbv zeta in H.
    destruct (checked_output host _ r1) as [text|e] eqn:Hco.
    + destruct H as (r2 & f2 & ->). eexists. split; [reflexivity |].
      cbn [fst]. destruct (checked_output_ok _ _ _ _ Hco) as (out & -> & _).
      now apply (stops_checked host [_; _; _; _; _; _; _]).
    + rewrite H. eexists. split; [reflexivity |].
      cbn [fst]. now apply (stops_checked_output host [_; _; _]).
  - rewrite (invocation_steps_unknown host se args w0 Hb Ht).
    eexists. split; [reflexivity |]. cbn. split; [| reflexivity].
    unfold valid_action. tauto.
Qed.

Lemma disciplined_run_matrix host se base passes :
  disciplined host (~ valid_action (action base)) (run_matrix host se base passes).
Proof.
  induction passes as [|[san short] passes IH]; cbn [run_matrix].
  - apply disciplined_ret.
  - apply disciplined_bind; [apply disciplined_print | intros _].
    apply disciplined_bind; [| intros _; exact IH].
    apply (disciplined_handle_invocation host se (derived_request base san short)).
Qed.




Lemma new_events_app w w' evs :
  events w' = events w ++ evs -> new_events w w' = evs.
Proof. unfold new_events. intros ->. apply drop_app_length. Qed.

Lemma new_events_same w : new_events w w = [].
Proof. apply new_events_app. now rewrite app_nil_r. Qed.


(** ** The children of a run that completes *)

Lemma spawn_cmds_app a b : spawn_cmds (a ++ b) = spawn_cmds a ++ spawn_cmds b.
Proof.
  induction a as [|[line|p err|cmd env r] a IH]; cbn [app spawn_cmds];
    [reflexivity | exact IH | exact IH | now rewrite IH].
Qed.

Lemma spawns_ret {A} (a : A) : spawns [] (ret a).
Proof. intros w a' _. exists []. cbn. now rewrite app_nil_r. Qed.

Lemma spawns_print line : spawns [] (print line).
Proof. intros w a _. now exists [EvPrint line]. Qed.

Lemma spawns_bind {A B} c1 c2 (m : Py A) (k : A -> Py B) :
  spawns c1 m -> (forall a, spawns c2 (k a)) -> spawns (c1 ++ c2) (bind m k).
Proof.
  intros Hm Hk w b. unfold bind.
  specialize (Hm w). destruct (m w) as [[a|e] w1]; cbn [fst snd] in *;
    [| discriminate].
  destruct (Hm a eq_refl) as (evs1 & He1 & Hc1).
  intros Hb. destruct (Hk a w1 b Hb) as (evs2 & He2 & Hc2).
  exists (evs1 ++ evs2). split.
  - now rewrite He2, He1, app_assoc.
  - now rewrite spawn_cmds_app, Hc1, Hc2.
Qed.

Lemma spawns_handle_invocation host se args :
  spawns (invocation_cmds host se args) (handle_invocation host se args).
Proof.
  intros w a. rewrite handle_invocation_split.
  set (w0 := with_environ (invocation_environ args (environ w)) w).
  change (events w) with (events w0). unfold invocation_cmds.
  destruct (String.eqb_spec (action args) "build") as [Hb|Hb];
    [| destruct (String.eqb_spec (action args) "test") as [Ht|Ht]].
  - destruct (invocation_steps_build host se args w0 Hb) as (r & f & ->).
    intros _. eexists. split; reflexivity.
  - destruct (invocation_steps_test host se args w0 Ht) as (r1 & f1 & H).
    cbv zeta in H. destruct (checked_output host _ r1) as [text|e].
    + destruct H as (r2 & f2 & ->). intros _. eexists. split; reflexivity.
    + rewrite H. discriminate.
  - rewrite (invocation_steps_unknown host se args w0 Hb Ht). discriminate.
Qed.

Lemma spawns_run_matrix host se base passes :
  spawns (concat (map (fun p => invocation_cmds host se
                                  (derived_request base (fst p) (snd p)))
                      passes))
         (run_matrix host se base passes).
Proof.
  induction passes as [|[san short] passes IH]; cbn [run_matrix map concat].
  - apply spawns_ret.
  - apply (spawns_bind [] _); [apply spawns_print | intros _].
    apply spawns_bind; [apply spawns_handle_invocation | intros _; exact IH].
Qed.

(** ** One invocation, with its environment *)

Lemma handle_invocation_build host se args w :
  action args = "build" ->
  let env := invocation_environ args (environ w) in
  let cmd := [se; "build"] ++ get_swiftpm_options host args in
  exists r f,
    handle_invocation host se args w =
    (checked cmd r,
     mkWorld env f
       (events w ++
        [ EvPrint ("Cleaning " +:+ build_path args);
          EvRmtree (build_path args) (snd (os_rmtree (build_path args) (fs w)));
          EvPrint (String.concat " " cmd);
          EvSpawn cmd env r ])).
Proof.
  intros Ha env cmd. rewrite handle_invocation_split.
  exact (invocation_steps_build host se args _ Ha).
Qed.

Lemma handle_invocation_test host se args w :
  action args = "test" ->
  let env := invocation_environ args (environ w) in
  let flags := get_swiftpm_options host args in
  let disc := [se; "build"; "--show-bin-path"] ++ flags in
  let test := [se; "test"] ++ flags ++ ["--parallel"] in
  exists r1 f1,
    let head :=
      [ EvPrint ("Cleaning " +:+ build_path args);
        EvRmtree (build_path args) (snd (os_rmtree (build_path args) (fs w)));
        EvPrint (String.concat " " disc);
        EvSpawn disc env r1 ] in
    match checked_output host disc r1 with
    | Ok text =>
        let tests := Path.join (str_strip host text) ["isdb-tests"] in
        exists r2 f2,
          handle_invocation host se args w =
          (checked test r2,
           mkWorld env f2
             (events w ++ head ++
              [ EvPrint ("Cleaning " +:+ tests);
                EvRmtree tests (snd (os_rmtree tests f1));
                EvPrint (String.concat " " test);
                EvSpawn test env r2 ]))
    | Raise e =>
        handle_invocation host se args w =
        (Raise e, mkWorld env f1 (events w ++ head))
    end.
Proof.
  intros Ha env flags disc test. rewrite handle_invocation_split.
  exact (invocation_steps_test host se args _ Ha).
Qed.

Lemma handle_invocation_unknown host se args w :
  action args <> "build" -> action args <> "test" ->
  handle_invocation host se args w =
  (Raise (AssertionError ("unknown action '" +:+ action args +:+ "'")),
   mkWorld (invocation_environ args (environ w))
     (fst (os_rmtree (build_path args) (fs w)))
     (events w ++
      [ EvPrint ("Cleaning " +:+ build_path args);
        EvRmtree (build_path args) (snd (os_rmtree (build_path args) (fs w))) ])).
Proof.
  intros Hb Ht. rewrite handle_invocation_split.
  exact (invocation_steps_unknown host se args _ Hb Ht).
Qed.

(** Every invocation starts with the removal of its build directory,
    whatever comes of it. *)
Lemma handle_invocation_head host se args w :
  exists rest,
    events (snd (handle_invocation host se args w)) =
    events w ++
    EvPrint ("Cleaning " +:+ build_path args)
    :: EvRmtree (build_path args) (snd (os_rmtree (build_path args) (fs w)))
    :: rest.
Proof.
  destruct (String.eqb_spec (action args) "build") as [Hb|Hb];
    [| destruct (String.eqb_spec (action args) "test") as [Ht|Ht]].
  - destruct (handle_invocation_build host se args w Hb) as (r & f & ->).
    eexists. reflexivity.
  - destruct (handle_invocation_test host se args w Ht) as (r1 & f1 & H).
    cbv zeta in H. destruct (checked_output host _ r1) as [text|e];
      [destruct H as (r2 & f2 & ->) | rewrite H];
      eexists; reflexivity.
  - rewrite (handle_invocation_unknown host se args w Hb Ht).
    eexists. reflexivity.
Qed.

(** After the removal of the build directory, whatever has come of
    it, an invocation with a valid action echoes and starts a child. *)
Lemma handle_invocation_first_child host se args w :
  valid_action (action args) ->
  exists cmd r rest,
    new_events w (snd (handle_invocation host se args w)) =
    EvPrint ("Cleaning " +:+ build_path args)
    :: EvRmtree (build_path args) (snd (os_rmtree (build_path args) (fs w)))
    :: EvPrint (String.concat " " cmd)
    :: EvSpawn cmd (invocation_environ args (environ w)) r
    :: rest.
Proof.
  intros [Ha|Ha].
  - destruct (handle_invocation_build host se args w Ha) as (r & f & ->).
    cbn [snd]. erewrite new_events_app by reflexivity.
    eexists _, r, []. reflexivity.
  - destruct (handle_invocation_test host se args w Ha) as (r1 & f1 & H).
    cbv zeta in H. destruct (checked_output host _ r1) as [text|e];
      [destruct H as (r2 & f2 & ->) | rewrite H];
      cbn [snd]; erewrite new_events_app by reflexivity;
      eexists _, r1, _; reflexivity.
Qed.

(** The environment of an invocation: what it leaves in [os.environ],
    and what each of its children receives. *)
Lemma handle_invocation_env host se args w :
  let env := invocation_environ args (environ w) in
  let w' := snd (handle_invocation host se args w) in
  environ w' = env
  /\ Forall (fun e => e = env) (spawn_envs (new_events w w')).
Proof.
  intros env w'. subst w'.
  destruct (String.eqb_spec (action args) "build") as [Hb|Hb];
    [| destruct (String.eqb_spec (action args) "test") as [Ht|Ht]].
  - destruct (handle_invocation_build host se args w Hb) as (r & f & ->).
    cbn [snd environ]. split; [reflexivity |].
    erewrite new_events_app by reflexivity. repeat constructor.
  - destruct (handle_invocation_test host se args w Ht) as (r1 & f1 & H).
    cbv zeta in H. destruct (checked_output host _ r1) as [text|e];
      [destruct H as (r2 & f2 & ->) | rewrite H];
      cbn [snd environ]; (split; [reflexivity |]);
      erewrite new_events_app by reflexivity; repeat constructor.
  - rewrite (handle_invocation_unknown host se args w Hb Ht).
    cbn [snd environ]. split; [reflexivity |].
    erewrite new_events_app by reflexivity. constructor.
Qed.

(** ** The environment of an invocation *)

Lemma overlay_lookup args e k v :
  (k, v) ∈ overlay args -> invocation_environ args e !! k = Some v.
Proof.
  unfold overlay, invocation_environ.
  destruct (ninja_bin args) as [[|c nb]|];
    destruct (sanitize_has "address" args);
    destruct (sanitize_has "undefined" args);
    destruct (sanitize_has "thread" args);
    cbn [app]; intros Hin;
    repeat match goal with
    | H : _ ∈ _ :: _ |- _ => apply elem_of_cons in H as [H|H]
    | H : _ ∈ [] |- _ => apply elem_of_nil in H; contradiction
    end;
    injection Hin as -> ->;
    rewrite ?lookup_insert_eq, ?lookup_insert_ne by discriminate;
    rewrite ?lookup_insert_eq; reflexivity.
Qed.

Lemma overlay_frame args e k :
  k ∉ (overlay args).*1 -> invocation_environ args e !! k = e !! k.
Proof.
  unfold overlay, invocation_environ.
  destruct (ninja_bin args) as [[|c nb]|];
    destruct (sanitize_has "address" args);
    destruct (sanitize_has "undefined" args);
    destruct (sanitize_has "thread" args);
    cbn [app fmap list_fmap fst]; intros Hk;
    repeat (apply not_elem_of_cons in Hk as [? Hk]);
    rewrite ?lookup_insert_ne by congruence; reflexivity.
Qed.

Lemma asan_lookup args e :
  invocation_environ args e !! "ASAN_OPTIONS" =
  if sanitize_has "address" args then Some "detect_leaks=false"
  else e !! "ASAN_OPTIONS".
Proof.
  unfold invocation_environ.
  destruct (ninja_bin args) as [[|c nb]|];
    destruct (sanitize_has "address" args);
    destruct (sanitize_has "undefined" args);
    destruct (sanitize_has "thread" args);
    rewrite ?lookup_insert_eq, ?lookup_insert_ne by discriminate;
    rewrite ?lookup_insert_eq; reflexivity.
Qed.

Lemma ubsan_lookup args e :
  invocation_environ args e !! "UBSAN_OPTIONS" =
  if sanitize_has "undefined" args
  then Some ("halt_on_error=true,suppressions=" +:+
             Path.join (package_path args) ["Utilities"; "ubsan_supressions.supp"])
  else e !! "UBSAN_OPTIONS".
Proof.
  unfold invocation_environ.
  destruct (ninja_bin args) as [[|c nb]|];
    destruct (sanitize_has "address" args);
    destruct (sanitize_has "undefined" args);
    destruct (sanitize_has "thread" args);
    rewrite ?lookup_insert_eq, ?lookup_insert_ne by discriminate;
    rewrite ?lookup_insert_eq; reflexivity.
Qed.

Lemma tsan_lookup args e :
  invocation_environ args e !! "INDEXSTOREDB_ENABLED_THREAD_SANITIZER" =
  if sanitize_has "thread" args then Some "1"
  else e !! "INDEXSTOREDB_ENABLED_THREAD_SANITIZER".
Proof.
  unfold invocation_environ.
  destruct (ninja_bin args) as [[|c nb]|];
    destruct (sanitize_has "address" args);
    destruct (sanitize_has "undefined" args);
    destruct (sanitize_has "thread" args);
    rewrite ?lookup_insert_eq, ?lookup_insert_ne by discriminate;
    rewrite ?lookup_insert_eq; reflexivity.
Qed.

Lemma ninja_lookup args e :
  invocation_environ args e !! "NINJA_BIN" =
  match ninja_bin args with
  | Some (String c nb) => Some (String c nb)
  | _ => e !! "NINJA_BIN"
  end.
Proof.
  unfold invocation_environ.
  destruct (ninja_bin args) as [[|c nb]|];
    destruct (sanitize_has "address" args);
    destruct (sanitize_has "undefined" args);
    destruct (sanitize_has "thread" args);
    rewrite ?lookup_insert_eq, ?lookup_insert_ne by discriminate;
    rewrite ?lookup_insert_eq; reflexivity.
Qed.


Lemma prefix_sanitize_flag san :
  String.prefix "--sanitize=" ("--sanitize=" +:+ san) = true.
Proof. destruct san; reflexivity. Qed.

Lemma isabs_not_sanitize_flag s :
  Path.isabs s = true -> String.prefix "--sanitize=" s = false.
Proof.
  destruct s as [|c s]; [discriminate |]. cbn [Path.isabs Str.startswith_sep].
  intros H. apply Ascii.eqb_eq in H. subst c. reflexivity.
Qed.

Ltac eval_flag_tests :=
  repeat match goal with
  | |- context [String.prefix "--sanitize=" ("--sanitize=" +:+ ?s)] =>
      rewrite (prefix_sanitize_flag s)
  | H : Path.isabs ?s = true |- context [String.prefix "--sanitize=" ?s] =>
      rewrite (isabs_not_sanitize_flag s H)
  | H : String.prefix "--sanitize=" ?s = false
    |- context [String.prefix "--sanitize=" ?s] => rewrite H
  | |- context [String.prefix "--sanitize=" (String ?c ?s)] =>
      let b := eval vm_compute in (String.prefix "--sanitize=" (String c s)) in
      change (String.prefix "--sanitize=" (String c s)) with b
  end.

(** ** The end-to-end scenarios of the specification, run on the model *)

(** Scenario A: a build without sanitizers on Darwin is one invocation;
    the build directory is removed once, no search-path flags are
    passed, and the run ends with status 0 when the child does. *)
Example scenario_a :
  let run := main (ci_host "Darwin" "--fail" 1)
                  (ci_args "build" None false) fresh_world in
  map (String.concat " ") (spawn_cmds (events (snd run))) =
    [ "/opt/toolchain/usr/bin/swift build --package-path /home/ci/indexstore-db --build-path /tmp/b --configuration debug" ]
  /\ removals (events (snd run)) = ["/tmp/b"]
  /\ exit_status (fst run) = 0%Z.
Proof. vm_compute. repeat split. Qed.

(** Scenario B: a sanitize-all test on Linux whose address pass fails
    at its first child: the thread pass never runs. *)
Example scenario_b :
  let run := main (ci_host "Linux" "--sanitize=address" 3)
                  (ci_args "test" None true) fresh_world in
  removals (events (snd run)) =
    ["/tmp/b"; "/tmp/b/debug/isdb-tests"; "/tmp/b/test-asan"]
  /\ List.length (spawn_cmds (events (snd run))) = 3%nat.
Proof. vm_compute. repeat split. Qed.

(** A test whose discovery child exits with 0 but prints a byte that
    is no text: the run dies of the decoding error after one removal
    and one child. *)
Example scenario_undecodable_output :
  let run := main (garbled_host "Linux" 0)
                  (ci_args "test" None false) fresh_world in
  fst run = Raise UnicodeDecodeError
  /\ removals (events (snd run)) = ["/tmp/b"]
  /\ List.length (spawn_cmds (events (snd run))) = 1%nat
  /\ exit_status (fst run) = 1%Z.
Proof. vm_compute. repeat split. Qed.

(** A relative package path in a working directory that is gone: the
    run dies in [os.path.abspath], before anything has happened. *)
Example scenario_cwd_removed :
  let run := main (lost_host "Linux")
                  (ci_args "build" None false) fresh_world in
  fst run = Raise (OSError ENOENT)
  /\ events (snd run) = []
  /\ exit_status (fst run) = 1%Z.
Proof. vm_compute. repeat split. Qed.

(** A build tool that cannot be started: the run dies of the error of
    the launch, after the removal of the build directory. *)
Example scenario_launch_failed :
  let run := main (broken_host "Linux")
                  (ci_args "build" None true) fresh_world in
  fst run = Raise (OSError ENOENT)
  /\ removals (events (snd run)) = ["/tmp/b"]
  /\ List.length (spawn_cmds (events (snd run))) = 1%nat.
Proof. vm_compute. repeat split. Qed.

(** Line ends of a carriage return and a line feed are read as line
    feeds and stripped. *)
Example scenario_crlf_output :
  let host := ascii_host "Linux" "/" false
                (fun _ _ _ f =>
                   (Exited 0 ("/tmp/b/debug" +:+ String Str.CR newline), f)) in
  removals (events (snd (main host (ci_args "test" None false) fresh_world)))
  = ["/tmp/b"; "/tmp/b/debug/isdb-tests"].
Proof. vm_compute. reflexivity. Qed.

(** * The claims *)

(** C1: in sanitize-all mode [main] runs the base request once and then
    the matrix: for address, then thread, then (except on Linux)
    undefined, a banner and one invocation of the request that differs
    from the base request only in its sanitizer set, which is that one
    sanitizer, and in its build path, [os.path.join] of the base
    build path and [test-asan], [test-tsan], [test-ubsan], which is
    [<base>/test-asan] and so on for a base path without a trailing
    separator; the matrix has two passes on
    Linux and three elsewhere.  A run that completes has started exactly
    the children of these invocations, in this order.  (Only when a
    path of the request is relative and the working directory is gone
    does [main] end before the base invocation, in [os.path.abspath].) *)
Theorem sanitize_all_matrix host args w :
  sanitize_all args = true ->
  sanitize_truthy args = false ->
  let base := canonical (getcwd host) args in
  let se := swift_exec_of base in
  let passes := map (fun p => derived_request base (fst p) (snd p))
                    (matrix (system host)) in
  main host args w =
    (if cwd_removed host && cwd_needed args
     then (Raise (OSError ENOENT), w)
     else bind (handle_invocation host se base)
               (fun _ => run_matrix host se base (matrix (system host))) w)
  /\ matrix (system host) =
       (if String.eqb (system host) "Linux"
        then [("address", "asan"); ("thread", "tsan")]
        else [("address", "asan"); ("thread", "tsan"); ("undefined", "ubsan")])
  /\ (forall san short,
        let d := derived_request base san short in
        sanitize d = Some [san]
        /\ build_path d = Path.join (build_path base) ["test-" +:+ short]
        /\ (Str.is_empty (build_path base) = false ->
            Str.endswith_sep (build_path base) = false ->
            build_path d = build_path base +:+ "/test-" +:+ short)
        /\ action d = action base /\ package_path d = package_path base
        /\ toolchain d = toolchain base /\ ninja_bin d = ninja_bin base
        /\ configuration d = configuration base
        /\ sanitize_all d = sanitize_all base /\ verbose d = verbose base)
  /\ (fst (main host args w) = Ok tt ->
      spawn_cmds (new_events w (snd (main host args w))) =
      concat (map (invocation_cmds host se) (base :: passes))).
Proof.
  intros Ha Hs base se passes.
  assert (E : main host args w =
              if cwd_removed host && cwd_needed args
              then (Raise (OSError ENOENT), w)
              else bind (handle_invocation host se base)
                        (fun _ => run_matrix host se base (matrix (system host))) w).
  { rewrite main_eq, Hs, Ha. reflexivity. }
  split; [exact E |]. split.
  { unfold matrix. destruct (String.eqb (system host) "Linux"); reflexivity. }
  split.
  { intros san short. cbv zeta. split; [reflexivity |]. split; [reflexivity |].
    split; [| repeat split].
    intros He Hs0.
    change (Path.join2 (build_path base) (String "t" ("est-" +:+ short)) =
            build_path base +:+ "/test-" +:+ short).
    rewrite (join2_plain _ "t" _ He Hs0 eq_refl). reflexivity. }
  rewrite E. destruct (cwd_removed host && cwd_needed args); [discriminate |].
  intros Hok.
  assert (Hsp : spawns (invocation_cmds host se base
                        ++ concat (map (invocation_cmds host se) passes))
                       (bind (handle_invocation host se base)
                             (fun _ => run_matrix host se base (matrix (system host))))).
  { apply spawns_bind; [apply spawns_handle_invocation | intros _].
    subst passes. rewrite map_map. apply spawns_run_matrix. }
  destruct (Hsp w tt Hok) as (evs & He & Hc).
  rewrite (new_events_app _ _ _ He). exact Hc.
Qed.

Lemma sanitize_all_matrix_witness :
  let host := ci_host "Linux" "--fail" 1 in
  let args := ci_args "test" None true in
  map (String.concat " ")
      (spawn_cmds (new_events fresh_world (snd (main host args fresh_world)))) =
  [
    "/opt/toolchain/usr/bin/swift build --show-bin-path --package-path /home/ci/indexstore-db --build-path /tmp/b --configuration debug -Xcxx -I -Xcxx /opt/toolchain/usr/lib/swift -Xcxx -I -Xcxx /opt/toolchain/usr/lib/swift/Block";
    "/opt/toolchain/usr/bin/swift test --package-path /home/ci/indexstore-db --build-path /tmp/b --configuration debug -Xcxx -I -Xcxx /opt/toolchain/usr/lib/swift -Xcxx -I -Xcxx /opt/toolchain/usr/lib/swift/Block --parallel";
    "/opt/toolchain/usr/bin/swift build --show-bin-path --package-path /home/ci/indexstore-db --build-path /tmp/b/test-asan --configuration debug --sanitize=address -Xcxx -I -Xcxx /opt/toolchain/usr/lib/swift -Xcxx -I -Xcxx /opt/toolchain/usr/lib/swift/Block";
    "/opt/toolchain/usr/bin/swift test --package-path /home/ci/indexstore-db --build-path /tmp/b/test-asan --configuration debug --sanitize=address -Xcxx -I -Xcxx /opt/toolchain/usr/lib/swift -Xcxx -I -Xcxx /opt/toolchain/usr/lib/swift/Block --parallel";
    "/opt/toolchain/usr/bin/swift build --show-bin-path --package-path /home/ci/indexstore-db --build-path /tmp/b/test-tsan --configuration debug --sanitize=thread -Xcxx -I -Xcxx /opt/toolchain/usr/lib/swift -Xcxx -I -Xcxx /opt/toolchain/usr/lib/swift/Block";
    "/opt/toolchain/usr/bin/swift test --package-path /home/ci/indexstore-db --build-path /tmp/b/test-tsan --configuration debug --sanitize=thread -Xcxx -I -Xcxx /opt/toolchain/usr/lib/swift -Xcxx -I -Xcxx /opt/toolchain/usr/lib/swift/Block --parallel" ].
Proof.
  intros host args.
  destruct (sanitize_all_matrix host args fresh_world eq_refl eq_refl)
    as (_ & _ & _ & H).
  rewrite H; [| vm_compute; reflexivity].
  vm_compute. reflexivity.
Defined.




(** C3, as the code has it: [env] is [os.environ] itself, so every
    invocation writes its overlay (the toolchain-bin-path variable, the
    ninja variable when a ninja path is given, the runtime variables of
    the sanitizers of the request) into the process environment; that
    environment is what each child of the invocation receives and what
    the invocation leaves behind, and the invocation changes no
    variable outside its overlay. *)
Theorem invocation_environment_in_place host se args w :
  let env := invocation_environ args (environ w) in
  let w' := snd (handle_invocation host se args w) in
  environ w' = env
  /\ Forall (fun e => e = env) (spawn_envs (new_events w w'))
  /\ (forall k v, (k, v) ∈ overlay args -> env !! k = Some v)
  /\ (forall k, k ∉ (overlay args).*1 -> env !! k = environ w !! k).
Proof.
  intros env w'.
  destruct (handle_invocation_env host se args w) as [H1 H2].
  split; [exact H1 |]. split; [exact H2 |]. split.
  - intros k v. apply overlay_lookup.
  - intros k. apply overlay_frame.
Qed.

Lemma invocation_environment_in_place_witness :
  let args := ci_args "build" (Some ["thread"]) false in
  let w := mkWorld {[ "PATH" := "/usr/bin" ]} (mkFS ∅ ∅) [] in
  let env := invocation_environ args (environ w) in
  env !! "INDEXSTOREDB_ENABLED_THREAD_SANITIZER" = Some "1"
  /\ env !! "PATH" = Some "/usr/bin"
  /\ env !! "ASAN_OPTIONS" = None.
Proof.
  intros args w env.
  destruct (invocation_environment_in_place (ci_host "Linux" "--fail" 1)
              "swift" args w) as (_ & _ & Hset & Hframe).
  fold env in Hset, Hframe.
  split; [| split].
  - apply Hset. apply list_elem_of_In. vm_compute. right. left. reflexivity.
  - rewrite Hframe; [reflexivity |].
    intros Hin. apply list_elem_of_In in Hin. vm_compute in Hin.
    intuition discriminate.
  - rewrite Hframe; [reflexivity |].
    intros Hin. apply list_elem_of_In in Hin. vm_compute in Hin.
    intuition discriminate.
Defined.

(** C3 as stated fails: in a sanitize-all build on Darwin that starts
    from an empty environment, the children of the four invocations
    (base, address, thread, undefined) receive the variables of the
    earlier passes as well, and the process environment is changed when
    the run is over. *)
Lemma environment_is_shared_across_invocations :
  let run := main (ci_host "Darwin" "--fail" 1)
                  (ci_args "build" None true) fresh_world in
  map (fun e => (e !! "ASAN_OPTIONS",
                 e !! "INDEXSTOREDB_ENABLED_THREAD_SANITIZER"))
      (spawn_envs (events (snd run))) =
  [ (None, None);
    (Some "detect_leaks=false", None);
    (Some "detect_leaks=false", Some "1");
    (Some "detect_leaks=false", Some "1") ]
  /\ environ fresh_world !! "ASAN_OPTIONS" = None
  /\ environ (snd run) !! "ASAN_OPTIONS" = Some "detect_leaks=false".
Proof. vm_compute. repeat split. Qed.




(** C5, as the code has it: [shutil.rmtree] is called with
    [ignore_errors=True], so during the cleanup every filesystem error
    is ignored, "no such file or directory" and any other alike.  The
    removal never raises; whatever it meets, the invocation goes on to
    the build tool and its outcome is what [subprocess] makes of its
    last child (the check of the return code, or the decoding error for
    a discovery whose output is no text); the build directory is
    removed once and, for a test whose discovery gave a path, the
    [isdb-tests] directory once: nothing is retried. *)
Theorem cleanup_errors_ignored host se args w :
  valid_action (action args) ->
  let run := handle_invocation host se args w in
  let bp := build_path args in
  (forall path w0, fst (shutil_rmtree path true w0) = Ok tt)
  /\ (exists mid cmd env r,
        new_events w (snd run) =
          EvPrint ("Cleaning " +:+ bp)
          :: EvRmtree bp (snd (os_rmtree bp (fs w)))
          :: mid ++ [EvSpawn cmd env r]
        /\ (fst run = checked cmd r
            \/ exists rc out,
                 r = Exited rc out /\ output_captured cmd = true
                 /\ locale_decode host out = None
                 /\ fst run = Raise UnicodeDecodeError))
  /\ (removals (new_events w (snd run)) = [bp]
      \/ exists out text,
           read_text host out = Some text
           /\ removals (new_events w (snd run)) =
              [bp; Path.join (str_strip host text) ["isdb-tests"]]).
Proof.
  intros Hv run bp. subst run bp.
  split; [intros path w0; now rewrite rmtree_run |].
  destruct Hv as [Ha|Ha].
  - destruct (handle_invocation_build host se args w Ha) as (r & f & ->).
    cbn [fst snd]. erewrite new_events_app by reflexivity. split.
    + eexists [_], _, _, r. split; [reflexivity | now left].
    + left. reflexivity.
  - destruct (handle_invocation_test host se args w Ha) as (r1 & f1 & H).
    cbv zeta in H. destruct (checked_output host _ r1) as [text|e] eqn:Hco.
    + destruct H as (r2 & f2 & ->).
      cbn [fst snd]; erewrite new_events_app by reflexivity.
      destruct (checked_output_ok _ _ _ _ Hco) as (out & -> & Hrt).
      split.
      * eexists [_; _; _; _; _], _, _, r2. split; [reflexivity | now left].
      * right. exists out, text. split; [exact Hrt | reflexivity].
    + rewrite H. cbn [fst snd]; erewrite new_events_app by reflexivity.
      split; [| left; reflexivity].
      eexists [_], _, _, r1. split; [reflexivity |].
      destruct (checked_output_raise_outcome _ _ _ _ Hco)
        as [E|(rc & out & -> & Hd & ->)]; [now left | right].
      exists rc, out. auto.
Qed.

Lemma cleanup_errors_ignored_witness :
  let host := ci_host "Darwin" "--fail" 1 in
  let args := ci_args "build" None false in
  let run := handle_invocation host "swift" args locked_world in
  snd (os_rmtree "/tmp/b" (fs locked_world)) = Some EACCES
  /\ exists mid cmd env r,
       new_events locked_world (snd run) =
         EvPrint "Cleaning /tmp/b"
         :: EvRmtree "/tmp/b" (snd (os_rmtree "/tmp/b" (fs locked_world)))
         :: mid ++ [EvSpawn cmd env r]
       /\ (fst run = checked cmd r
           \/ exists rc out,
                r = Exited rc out /\ output_captured cmd = true
                /\ locale_decode host out = None
                /\ fst run = Raise UnicodeDecodeError).
Proof.
  intros host args run. split; [vm_compute; reflexivity |].
  destruct (cleanup_errors_ignored host "swift" args locked_world) as (_ & H & _).
  - left. reflexivity.
  - exact H.
Defined.

(** C5 as stated fails: removing a build directory that exists but may
    not be removed meets "permission denied"; the error is not
    propagated, the build tool is started and the run ends normally. *)
Lemma cleanup_permission_error_not_fatal :
  let host := ci_host "Darwin" "--fail" 1 in
  let run := main host (ci_args "build" None false) locked_world in
  new_events locked_world (snd run) !! 1%nat
    = Some (EvRmtree "/tmp/b" (Some EACCES))
  /\ fst run = Ok tt
  /\ exit_status (fst run) = 0%Z
  /\ map (String.concat " ") (spawn_cmds (new_events locked_world (snd run))) =
     [ "/opt/toolchain/usr/bin/swift build --package-path /home/ci/indexstore-db --build-path /tmp/b --configuration debug" ].
Proof. vm_compute. repeat split. Qed.

(** C6: a request whose sanitizer set is non-empty and whose
    sanitize-all flag is set ends in a configuration error, with a
    non-zero exit status, before any subprocess is spawned and before
    any cleanup: the world is left exactly as it was. *)
Theorem conflicting_sanitizer_flags_rejected host args w :
  sanitize_truthy args = true ->
  sanitize_all args = true ->
  main host args w =
    (Raise (AssertionError "cannot combine --sanitize with --sanitize-all"), w)
  /\ spawn_cmds (new_events w (snd (main host args w))) = []
  /\ removals (new_events w (snd (main host args w))) = []
  /\ exit_status (fst (main host args w)) = 1%Z.
Proof.
  intros Hs Ha. rewrite main_eq, Hs, Ha. cbn [andb fst snd exit_status].
  rewrite new_events_same. auto.
Qed.

Lemma conflicting_sanitizer_flags_rejected_witness :
  let host := ci_host "Linux" "--sanitize=address" 3 in
  let args := ci_args "test" (Some ["address"]) true in
  main host args fresh_world =
    (Raise (AssertionError "cannot combine --sanitize with --sanitize-all"),
     fresh_world)
  /\ spawn_cmds (new_events fresh_world (snd (main host args fresh_world))) = []
  /\ removals (new_events fresh_world (snd (main host args fresh_world))) = []
  /\ exit_status (fst (main host args fresh_world)) = 1%Z.
Proof.
  intros host args.
  apply (conflicting_sanitizer_flags_rejected host args fresh_world);
    reflexivity.
Defined.

(** C7: on every platform other than Darwin the translated flag list
    ends with the two compiler-search-path flag groups for
    [<toolchain>/lib/swift] and [<toolchain>/lib/swift/Block] (joined
    with [os.path.join]; literally these for a toolchain path without a
    trailing separator), appended after all other flags whatever the
    sanitizer selection is; on Darwin
    the list is the platform-independent flags alone and does not end
    with those flags. *)
Theorem search_path_flags_by_platform host args :
  let flags := get_swiftpm_options host args in
  let extra :=
    [ "-Xcxx"; "-I"; "-Xcxx"; Path.join (toolchain args) ["lib"; "swift"];
      "-Xcxx"; "-I"; "-Xcxx"; Path.join (toolchain args) ["lib"; "swift"; "Block"] ] in
  (if String.eqb (system host) "Darwin"
   then flags = common_flags args /\ ~ list_ends_with extra flags
   else flags = common_flags args ++ extra /\ list_ends_with extra flags)
  /\ (Str.is_empty (toolchain args) = false ->
      Str.endswith_sep (toolchain args) = false ->
      extra =
      [ "-Xcxx"; "-I"; "-Xcxx"; toolchain args +:+ "/lib/swift";
        "-Xcxx"; "-I"; "-Xcxx"; toolchain args +:+ "/lib/swift/Block" ]).
Proof.
  intros flags extra. split.
  - subst flags. rewrite get_swiftpm_options_eq.
    destruct (String.eqb (system host) "Darwin"); cbn [negb].
    + rewrite app_nil_r. split; [reflexivity |].
      apply (common_flags_no_search_path args (toolchain args)).
    + split; [reflexivity |]. now exists (common_flags args).
  - intros He Hs. subst extra.
    destruct (join_lib_swift (toolchain args) He Hs) as [-> ->]. reflexivity.
Qed.

Lemma search_path_flags_by_platform_witness :
  let host := ci_host "Linux" "--fail" 1 in
  let args := ci_args "build" (Some ["thread"]) false in
  get_swiftpm_options host args =
    common_flags args ++
    [ "-Xcxx"; "-I"; "-Xcxx"; "/opt/toolchain/usr/lib/swift";
      "-Xcxx"; "-I"; "-Xcxx"; "/opt/toolchain/usr/lib/swift/Block" ].
Proof.
  intros host args.
  destruct (search_path_flags_by_platform host args) as [[Hf _] Hx].
  rewrite Hf, Hx; reflexivity.
Defined.

(** C8: a test invocation removes the build directory first, then runs
    the discovery child [build --show-bin-path] with the translated
    flags and without [--parallel]; if that child cannot be started,
    if its output cannot be decoded or if it exits non-zero, nothing
    else happens and the invocation ends with the exception;
    otherwise the [isdb-tests] directory below the path it printed
    (the output read as text, stripped) is removed, and only then the
    [test] child runs with the translated flags followed by
    [--parallel].  Every command line is echoed right before it
    runs. *)
Theorem test_invocation_step_order host se args w :
  action args = "test" ->
  let run := handle_invocation host se args w in
  let env := invocation_environ args (environ w) in
  let flags := get_swiftpm_options host args in
  let disc := [se; "build"; "--show-bin-path"] ++ flags in
  let test := [se; "test"] ++ flags ++ ["--parallel"] in
  exists r1,
    let head :=
      [ EvPrint ("Cleaning " +:+ build_path args);
        EvRmtree (build_path args) (snd (os_rmtree (build_path args) (fs w)));
        EvPrint (String.concat " " disc);
        EvSpawn disc env r1 ] in
    match r1 with
    | LaunchFailed err =>
        new_events w (snd run) = head /\ fst run = Raise (OSError err)
    | Exited rc out =>
        match read_text host out with
        | None =>
            new_events w (snd run) = head /\ fst run = Raise UnicodeDecodeError
        | Some text =>
            if Z.eqb rc 0 then
              let tests := Path.join (str_strip host text) ["isdb-tests"] in
              exists err2 r2,
                new_events w (snd run) =
                  head ++
                  [ EvPrint ("Cleaning " +:+ tests);
                    EvRmtree tests err2;
                    EvPrint (String.concat " " test);
                    EvSpawn test env r2 ]
                /\ fst run = checked test r2
            else
              new_events w (snd run) = head
              /\ fst run = Raise (CalledProcessError rc disc)
        end
    end.
Proof.
  intros Ha run env flags disc test. subst run.
  destruct (handle_invocation_test host se args w Ha) as (r1 & f1 & H).
  exists r1. cbv zeta in H |- *. fold flags disc test env in H.
  destruct r1 as [rc out|err]; cbn [checked_output] in H.
  - destruct (read_text host out) as [text|].
    + destruct (Z.eqb rc 0).
      * destruct H as (r2 & f2 & ->).
        eexists _, r2. split; [| reflexivity].
        apply new_events_app. reflexivity.
      * rewrite H. split; [| reflexivity]. now apply new_events_app.
    + rewrite H. split; [| reflexivity]. now apply new_events_app.
  - rewrite H. split; [| reflexivity]. now apply new_events_app.
Qed.

Lemma test_invocation_step_order_witness :
  let host := ci_host "Darwin" "--fail" 1 in
  let args := ci_args "test" None false in
  let run := handle_invocation host "swift" args fresh_world in
  let env := invocation_environ args (environ fresh_world) in
  let flags := get_swiftpm_options host args in
  let disc := ["swift"; "build"; "--show-bin-path"] ++ flags in
  let test := ["swift"; "test"] ++ flags ++ ["--parallel"] in
  action args = "test"
  /\ exists r1,
       let head :=
         [ EvPrint ("Cleaning " +:+ build_path args);
           EvRmtree (build_path args)
                    (snd (os_rmtree (build_path args) (fs fresh_world)));
           EvPrint (String.concat " " disc);
           EvSpawn disc env r1 ] in
       match r1 with
       | LaunchFailed err =>
           new_events fresh_world (snd run) = head
           /\ fst run = Raise (OSError err)
       | Exited rc out =>
           match read_text host out with
           | None =>
               new_events fresh_world (snd run) = head
               /\ fst run = Raise UnicodeDecodeError
           | Some text =>
               if Z.eqb rc 0 then
                 let tests := Path.join (str_strip host text) ["isdb-tests"] in
                 exists err2 r2,
                   new_events fresh_world (snd run) =
                     head ++
                     [ EvPrint ("Cleaning " +:+ tests);
                       EvRmtree tests err2;
                       EvPrint (String.concat " " test);
                       EvSpawn test env r2 ]
                   /\ fst run = checked test r2
               else
                 new_events fresh_world (snd run) = head
                 /\ fst run = Raise (CalledProcessError rc disc)
           end
       end.
Proof.
  intros host args run env flags disc test.
  split; [reflexivity |].
  apply (test_invocation_step_order host "swift" args fresh_world).
  reflexivity.
Defined.

(** C9: the cleanup of the build directory (line 68) on a directory
    that is already absent raises no error, the first time and the
    second: in each of two invocations in a row that find the
    directory absent, [shutil.rmtree] meets "no such file or
    directory", the error is swallowed, and the invocation goes on to
    echo and start its first child; it returns normally if none of its
    children fails. *)
Theorem cleanup_idempotent_on_absent host se args w :
  valid_action (action args) ->
  let bp := build_path args in
  let first := handle_invocation host se args w in
  let second := handle_invocation host se args (snd first) in
  bp ∉ present (fs w) ->
  bp ∉ present (fs (snd first)) ->
  (exists cmd env r rest,
     new_events w (snd first) =
       EvPrint ("Cleaning " +:+ bp) :: EvRmtree bp (Some ENOENT)
       :: EvPrint (String.concat " " cmd) :: EvSpawn cmd env r :: rest)
  /\ (exists cmd env r rest,
        new_events (snd first) (snd second) =
          EvPrint ("Cleaning " +:+ bp) :: EvRmtree bp (Some ENOENT)
          :: EvPrint (String.concat " " cmd) :: EvSpawn cmd env r :: rest)
  /\ (all_succeeded (new_events w (snd first)) = true ->
      all_decodable host (new_events w (snd first)) = true ->
      fst first = Ok tt)
  /\ (all_succeeded (new_events (snd first) (snd second)) = true ->
      all_decodable host (new_events (snd first) (snd second)) = true ->
      fst second = Ok tt).
Proof.
  intros Hv bp first second H1 H2. subst bp.
  assert (Hok : forall w0,
            all_succeeded (new_events w0 (snd (handle_invocation host se args w0)))
              = true ->
            all_decodable host
              (new_events w0 (snd (handle_invocation host se args w0))) = true ->
            fst (handle_invocation host se args w0) = Ok tt).
  { intros w0 Hall Hdec.
    destruct (disciplined_handle_invocation host se args w0) as (evs & He & Hs).
    rewrite (new_events_app _ _ _ He) in Hall, Hdec.
    destruct (stops_quietly host _ _ _ Hs) as [[] E]; auto. }
  assert (Hrm : forall f, build_path args ∉ present f ->
                          snd (os_rmtree (build_path args) f) = Some ENOENT).
  { intros f Hf. unfold os_rmtree. now rewrite bool_decide_eq_false_2. }
  split; [| split; [| split]].
  - destruct (handle_invocation_first_child host se args w Hv)
      as (cmd & r & rest & E).
    rewrite (Hrm _ H1) in E. eexists cmd, _, r, rest. exact E.
  - destruct (handle_invocation_first_child host se args (snd first) Hv)
      as (cmd & r & rest & E).
    rewrite (Hrm _ H2) in E. eexists cmd, _, r, rest. exact E.
  - apply Hok.
  - apply Hok.
Qed.

Lemma cleanup_idempotent_on_absent_witness :
  let host := ci_host "Linux" "--fail" 1 in
  let args := ci_args "build" None false in
  let first := handle_invocation host "swift" args fresh_world in
  let second := handle_invocation host "swift" args (snd first) in
  (exists cmd env r rest,
     new_events fresh_world (snd first) =
       EvPrint "Cleaning /tmp/b" :: EvRmtree "/tmp/b" (Some ENOENT)
       :: EvPrint (String.concat " " cmd) :: EvSpawn cmd env r :: rest)
  /\ (exists cmd env r rest,
        new_events (snd first) (snd second) =
          EvPrint "Cleaning /tmp/b" :: EvRmtree "/tmp/b" (Some ENOENT)
          :: EvPrint (String.concat " " cmd) :: EvSpawn cmd env r :: rest)
  /\ fst first = Ok tt
  /\ fst second = Ok tt.
Proof.
  intros host args first second.
  destruct (cleanup_idempotent_on_absent host "swift" args fresh_world)
    as (H1 & H2 & H3 & H4).
  - left. reflexivity.
  - apply (proj1 (bool_decide_eq_false _)). vm_compute. reflexivity.
  - apply (proj1 (bool_decide_eq_false _)). vm_compute. reflexivity.
  - split; [exact H1 |]. split; [exact H2 |]. split.
    + apply H3; vm_compute; reflexivity.
    + apply H4; vm_compute; reflexivity.
Defined.

(** C10: if the working directory is absolute (as [os.getcwd()] is),
    [main] replaces the package path, the build path and the toolchain
    path by absolute paths before anything else happens to the world, so
    also for the defaults ['.'] and ['.build']; the first thing a run
    without configuration error does is to clean the canonical build
    path, and every build path of the sanitize-all matrix is formed
    from the canonical base path and is absolute.  If a path is
    relative and the working directory is gone, the canonicalisation
    itself fails and the run ends there, the world untouched. *)
Theorem paths_canonical_before_effects host args w :
  Path.isabs (getcwd host) = true ->
  let cwd := getcwd host in
  let base := canonical cwd args in
  let se := swift_exec_of base in
  (Path.isabs (package_path base) = true
   /\ Path.isabs (build_path base) = true
   /\ Path.isabs (toolchain base) = true)
  /\ (Path.isabs (Path.abspath cwd ".") = true
      /\ Path.isabs (Path.abspath cwd ".build") = true)
  /\ (forall san short,
        build_path (derived_request base san short) =
          Path.join (Path.abspath cwd (build_path args)) ["test-" +:+ short]
        /\ Path.isabs (build_path (derived_request base san short)) = true)
  /\ main host args w =
       (if sanitize_truthy args && sanitize_all args
        then (Raise (AssertionError "cannot combine --sanitize with --sanitize-all"), w)
        else if cwd_removed host && cwd_needed args
        then (Raise (OSError ENOENT), w)
        else bind (handle_invocation host se base)
                  (fun _ => if sanitize_all args
                            then run_matrix host se base (matrix (system host))
                            else ret tt) w)
  /\ (sanitize_truthy args && sanitize_all args = false ->
      if cwd_removed host && cwd_needed args
      then main host args w = (Raise (OSError ENOENT), w)
      else
        exists rest,
          new_events w (snd (main host args w)) =
          EvPrint ("Cleaning " +:+ Path.abspath cwd (build_path args))
          :: EvRmtree (Path.abspath cwd (build_path args))
               (snd (os_rmtree (Path.abspath cwd (build_path args)) (fs w)))
          :: rest).
Proof.
  intros Hcwd cwd base se.
  split; [| split; [| split; [| split]]].
  - cbn [base canonical package_path build_path toolchain].
    auto using abspath_isabs.
  - auto using abspath_isabs.
  - intros san short. split; [reflexivity |].
    cbn [derived_request build_path base canonical].
    apply join_isabs. now apply abspath_isabs.
  - apply main_eq.
  - intros Hc. rewrite main_eq, Hc. fold cwd base se.
    destruct (cwd_removed host && cwd_needed args); [reflexivity |].
    destruct (handle_invocation_head host se base w) as (rest1 & H1).
    set (k := fun _ : unit => if sanitize_all args
                   then run_matrix host se base (matrix (system host))
                   else ret tt).
    assert (Hk : forall a, disciplined host (~ valid_action (action base)) (k a)).
    { intros a. unfold k. destruct (sanitize_all args).
      - apply disciplined_run_matrix.
      - apply disciplined_ret. }
    unfold bind. destruct (handle_invocation host se base w) as [[[]|e] w1];
      cbn [snd] in *.
    + destruct (Hk tt w1) as (evs & He & _).
      exists (rest1 ++ evs). apply new_events_app.
      rewrite He, H1, <- app_assoc. reflexivity.
    + exists rest1. now apply new_events_app.
Qed.

Lemma paths_canonical_before_effects_witness :
  let host := ci_host "Linux" "--fail" 1 in
  let args := mkArgs "build" "." "../toolchain/usr" None ".build" "debug"
                     None true false in
  build_path (canonical (getcwd host) args) = "/home/ci/indexstore-db/.build"
  /\ build_path (derived_request (canonical (getcwd host) args) "address" "asan")
     = "/home/ci/indexstore-db/.build/test-asan"
  /\ exists rest,
       new_events fresh_world (snd (main host args fresh_world)) =
       EvPrint "Cleaning /home/ci/indexstore-db/.build"
       :: EvRmtree "/home/ci/indexstore-db/.build"
            (snd (os_rmtree "/home/ci/indexstore-db/.build" (fs fresh_world)))
       :: rest.
Proof.
  intros host args.
  destruct (paths_canonical_before_effects host args fresh_world eq_refl)
    as (_ & _ & Hd & _ & Hfirst).
  split; [reflexivity |]. split.
  - destruct (Hd "address" "asan") as [-> _]. reflexivity.
  - exact (Hfirst eq_refl).
Defined.

(** * Further properties of the script *)

(** ** The traces of an invocation and of a run *)

Lemma handle_invocation_shape host se args w :
  let run := handle_invocation host se args w in
  let env := invocation_environ args (environ w) in
  exists evs,
    events (snd run) = events w ++ evs
    /\ environ (snd run) = env
    /\ invocation_trace host se args env evs (fst run).
Proof.
  intros run env. subst run.
  destruct (String.eqb_spec (action args) "build") as [Hb|Hb];
    [| destruct (String.eqb_spec (action args) "test") as [Ht|Ht]].
  - destruct (handle_invocation_build host se args w Hb) as (r & f & ->).
    eexists. split; [reflexivity |]. split; [reflexivity |].
    exact (trace_build host se args env _ r Hb).
  - destruct (handle_invocation_test host se args w Ht) as (r1 & f1 & H).
    cbv zeta in H.
    destruct (checked_output host _ r1) as [text|e] eqn:Hco.
    + destruct H as (r2 & f2 & ->).
      destruct (checked_output_ok _ _ _ _ Hco) as (out & -> & Hrt).
      eexists. split; [reflexivity |]. split; [reflexivity |].
      exact (trace_test host se args env _ out text _ r2 Ht Hrt).
    + rewrite H. eexists. split; [reflexivity |]. split; [reflexivity |].
      exact (trace_discovery_failed host se args env _ r1 e Ht Hco).
  - rewrite (handle_invocation_unknown host se args w Hb Ht).
    eexists. split; [reflexivity |]. split; [reflexivity |].
    exact (trace_unknown host se args env _ Hb Ht).
Qed.

Lemma run_of_ret {A} Q (a : A) : concat_closed Q -> run_of Q (ret a).
Proof. intros [H0 _] w. exists []. cbn. now rewrite app_nil_r. Qed.

Lemma run_of_print Q line : Q [EvPrint line] -> run_of Q (print line).
Proof. intros H w. now exists [EvPrint line]. Qed.

Lemma run_of_bind {A B} Q (m : Py A) (k : A -> Py B) :
  concat_closed Q -> run_of Q m -> (forall a, run_of Q (k a)) ->
  run_of Q (bind m k).
Proof.
  intros [_ Hc] Hm Hk w. destruct (Hm w) as (evs1 & He1 & H1).
  unfold bind. destruct (m w) as [[a|e] w1]; cbn [fst snd] in *.
  - destruct (Hk a w1) as (evs2 & He2 & H2).
    exists (evs1 ++ evs2). split; [| now apply Hc].
    now rewrite He2, He1, app_assoc.
  - now exists evs1.
Qed.

Lemma run_of_handle_invocation host se args (Q : list Event -> Prop) :
  (forall e evs r,
      invocation_trace host se args (invocation_environ args e) evs r -> Q evs) ->
  run_of Q (handle_invocation host se args).
Proof.
  intros H w.
  destruct (handle_invocation_shape host se args w) as (evs & He & _ & Ht).
  exists evs. split; [exact He |]. exact (H _ _ _ Ht).
Qed.

Lemma same_base_refl base : same_base base base.
Proof. repeat split. Qed.

Lemma same_base_derived base san short :
  same_base base (derived_request base san short).
Proof. repeat split. Qed.

Lemma run_of_run_matrix host se base passes (Q : list Event -> Prop) :
  concat_closed Q ->
  (forall line, Q [EvPrint line]) ->
  (forall p e evs r,
      In p passes ->
      invocation_trace host se (derived_request base (fst p) (snd p))
        (invocation_environ (derived_request base (fst p) (snd p)) e) evs r ->
      Q evs) ->
  run_of Q (run_matrix host se base passes).
Proof.
  intros Hc Hp. induction passes as [|[san short] passes IH]; intros Hi;
    cbn [run_matrix].
  - now apply run_of_ret.
  - apply run_of_bind; [exact Hc | apply run_of_print, Hp | intros _].
    apply run_of_bind; [exact Hc | | intros _].
    + apply run_of_handle_invocation. intros e evs r.
      apply (Hi (san, short)). now left.
    + apply IH. intros p e evs r Hin. apply Hi. now right.
Qed.

Lemma run_of_main host args (Q : list Event -> Prop) :
  let base := canonical (getcwd host) args in
  let se := swift_exec_of base in
  concat_closed Q ->
  (forall line, Q [EvPrint line]) ->
  (forall a e evs r,
      In a (run_requests host args) ->
      same_base base a ->
      invocation_trace host se a (invocation_environ a e) evs r -> Q evs) ->
  run_of Q (main host args).
Proof.
  intros base se Hc Hp Hi w. rewrite main_eq. fold base se.
  destruct (sanitize_truthy args && sanitize_all args);
    [| destruct (cwd_removed host && cwd_needed args)].
  - exists []. cbn. rewrite app_nil_r. split; [reflexivity | apply Hc].
  - exists []. cbn. rewrite app_nil_r. split; [reflexivity | apply Hc].
  - revert w. apply run_of_bind; [exact Hc | |].
    + apply run_of_handle_invocation. intros e evs r.
      apply Hi; [now left | apply same_base_refl].
    + intros _. unfold run_requests in Hi. fold base in Hi.
      destruct (sanitize_all args); [| now apply run_of_ret].
      apply run_of_run_matrix; [exact Hc | exact Hp |].
      intros p e evs r Hin. apply Hi; [| apply same_base_derived].
      right. apply in_map_iff. now exists p.
Qed.

Lemma spawn_envs_app a b : spawn_envs (a ++ b) = spawn_envs a ++ spawn_envs b.
Proof.
  induction a as [|[line|p err|cmd env r] a IH]; cbn [app spawn_envs];
    [reflexivity | exact IH | exact IH | now rewrite IH].
Qed.

Lemma removals_app a b : removals (a ++ b) = removals a ++ removals b.
Proof.
  induction a as [|[line|p err|cmd env r] a IH]; cbn [app removals];
    [reflexivity | exact IH | now rewrite IH | exact IH].
Qed.

Lemma normpath_nonempty p : Str.is_empty (Path.normpath p) = false.
Proof.
  unfold Path.normpath.
  destruct (String.eqb p EmptyString); [reflexivity |].
  cbv zeta.
  set (q := Str.seps (Path.initial_slashes p) +:+ _).
  destruct (String.eqb_spec q EmptyString) as [E|E]; [reflexivity |].
  destruct q; [congruence | reflexivity].
Qed.

Lemma toolchain_variable_set args e :
  invocation_environ args e !! "INDEXSTOREDB_TOOLCHAIN_BIN_PATH"
  = Some (toolchain args).
Proof.
  apply overlay_lookup. unfold overlay.
  apply elem_of_app. left. apply list_elem_of_singleton. reflexivity.
Qed.

Lemma echoed_after_weaken p evs :
  echoed_after None evs = true -> echoed_after p evs = true.
Proof.
  destruct evs as [|[line|path err|cmd env r] evs]; cbn [echoed_after];
    auto. discriminate.
Qed.

Lemma echoed_after_app a : forall p b,
  echoed_after p a = true -> echoed_after None b = true ->
  echoed_after p (a ++ b) = true.
Proof.
  induction a as [|[line|path err|cmd env r] a IH]; intros p b Ha Hb;
    cbn [app echoed_after] in *.
  - now apply echoed_after_weaken.
  - now apply IH.
  - now apply IH.
  - apply andb_true_iff in Ha. destruct Ha as [Hp Ha].
    rewrite Hp. cbn [andb]. now apply IH.
Qed.

Lemma echoed_closed : concat_closed echoed.
Proof.
  split; [reflexivity |]. intros a b. unfold echoed. apply echoed_after_app.
Qed.

Lemma echoed_after_spawn pre : forall p cmd env r post,
  echoed_after p (pre ++ EvSpawn cmd env r :: post) = true ->
  (pre = [] /\ p = Some (String.concat " " cmd))
  \/ exists pre', pre = pre' ++ [EvPrint (String.concat " " cmd)].
Proof.
  induction pre as [|[line|path err|cmd0 env0 r0] pre IH];
    intros p cmd env r post H; cbn [app echoed_after] in H.
  - left. split; [reflexivity |].
    apply andb_true_iff in H. destruct H as [H _].
    destruct p as [line|]; [| discriminate].
    apply String.eqb_eq in H. now subst.
  - right. destruct (IH _ _ _ _ _ H) as [[-> E]|[pre' ->]].
    + injection E as ->. now exists [].
    + now exists (EvPrint line :: pre').
  - right. destruct (IH _ _ _ _ _ H) as [[_ E]|[pre' ->]]; [discriminate |].
    now exists (EvRmtree path err :: pre').
  - right. apply andb_true_iff in H. destruct H as [_ H].
    destruct (IH _ _ _ _ _ H) as [[_ E]|[pre' ->]]; [discriminate |].
    now exists (EvSpawn cmd0 env0 r0 :: pre').
Qed.

Lemma invocation_trace_echoed host se args env evs r :
  invocation_trace host se args env evs r -> echoed evs.
Proof.
  intros H. unfold echoed.
  destruct H; cbn [echoed_after]; rewrite ?String.eqb_refl; reflexivity.
Qed.

(** ** The children of a run *)

(** X1: whatever the request and whatever the build tool does, every
    child [main] starts is started right after the script has printed
    exactly its command line, the arguments joined with single
    spaces. *)
Theorem commands_echoed_before_run host args w :
  forall pre cmd env r post,
    new_events w (snd (main host args w)) = pre ++ EvSpawn cmd env r :: post ->
    exists pre', pre = pre' ++ [EvPrint (String.concat " " cmd)].
Proof.
  intros pre cmd env r post E.
  destruct (run_of_main host args echoed echoed_closed) with (w := w)
    as (evs & He & Hq).
  - reflexivity.
  - intros a e evs r0 _ _. apply invocation_trace_echoed.
  - rewrite (new_events_app _ _ _ He) in E. subst evs.
    destruct (echoed_after_spawn _ _ _ _ _ _ Hq) as [[_ H]|H];
      [discriminate | exact H].
Qed.

Lemma commands_echoed_before_run_witness :
  let run := main (ci_host "Darwin" "--fail" 1)
                  (ci_args "build" None false) fresh_world in
  let evs := new_events fresh_world (snd run) in
  exists cmd pre',
    removelast evs = pre' ++ [EvPrint (String.concat " " cmd)].
Proof.
  intros run evs.
  assert (Hl : exists cmd env r, List.last evs (EvPrint EmptyString) = EvSpawn cmd env r)
    by (vm_compute; eauto).
  destruct Hl as (cmd & env & r & Hl).
  assert (He : evs = removelast evs ++ EvSpawn cmd env r :: []).
  { rewrite <- Hl. apply app_removelast_last. vm_compute. discriminate. }
  exists cmd.
  exact (commands_echoed_before_run (ci_host "Darwin" "--fail" 1)
           (ci_args "build" None false) fresh_world
           (removelast evs) cmd env r [] He).
Defined.

(** X2: [main] only ever starts [<toolchain>/bin/swift], with the
    toolchain path made absolute, and only with the verb [build] or
    [test]; the fallback to a bare [swift] is never taken, because
    [os.path.abspath] never returns an empty string. *)
Theorem children_run_toolchain_swift host args w :
  let swift :=
    Path.join (Path.abspath (getcwd host) (toolchain args)) ["bin"; "swift"] in
  swift_exec_of (canonical (getcwd host) args) = swift
  /\ Forall (fun cmd => exists verb rest,
                 cmd = swift :: verb :: rest
                 /\ (verb = "build" \/ verb = "test"))
            (spawn_cmds (new_events w (snd (main host args w)))).
Proof.
  intros swift.
  assert (Hse : swift_exec_of (canonical (getcwd host) args) = swift).
  { unfold swift_exec_of. cbn [canonical toolchain].
    unfold Path.abspath at 1. now rewrite normpath_nonempty. }
  split; [exact Hse |].
  set (P := fun cmd : list string => exists verb rest,
                cmd = swift :: verb :: rest /\ (verb = "build" \/ verb = "test")).
  destruct (run_of_main host args (fun evs => Forall P (spawn_cmds evs)))
    with (w := w) as (evs & He & Hq).
  - split; [constructor |]. intros a b Ha Hb.
    rewrite spawn_cmds_app. now apply Forall_app.
  - intros line. constructor.
  - intros a e evs r _ _ H. rewrite Hse in H.
    destruct H; cbn [spawn_cmds]; repeat constructor;
      unfold P, build_cmd, discovery_cmd, test_cmd; cbn [app]; eauto.
  - now rewrite (new_events_app _ _ _ He).
Qed.

(** X3: every child of every run receives
    [INDEXSTOREDB_TOOLCHAIN_BIN_PATH] set to the absolute toolchain
    path itself (the toolchain root, not its [bin] directory), in the
    base invocation and in every sanitizer pass alike. *)
Theorem children_see_toolchain_variable host args w :
  Forall (fun env =>
            env !! "INDEXSTOREDB_TOOLCHAIN_BIN_PATH"
            = Some (Path.abspath (getcwd host) (toolchain args)))
         (spawn_envs (new_events w (snd (main host args w)))).
Proof.
  set (P := fun env : gmap string string =>
              env !! "INDEXSTOREDB_TOOLCHAIN_BIN_PATH"
              = Some (Path.abspath (getcwd host) (toolchain args))).
  destruct (run_of_main host args (fun evs => Forall P (spawn_envs evs)))
    with (w := w) as (evs & He & Hq).
  - split; [constructor |]. intros a b Ha Hb.
    rewrite spawn_envs_app. now apply Forall_app.
  - intros line. constructor.
  - intros a e evs r _ (_ & _ & Ht & _) H.
    assert (HP : P (invocation_environ a e)).
    { unfold P. rewrite toolchain_variable_set, Ht. reflexivity. }
    destruct H; cbn [spawn_envs]; repeat constructor; exact HP.
  - now rewrite (new_events_app _ _ _ He).
Qed.

(** ** The environment over a whole run *)

Lemma overlay_keys_script args k :
  k ∈ (overlay args).*1 -> k ∈ script_variables.
Proof.
  unfold overlay, script_variables.
  destruct (ninja_bin args) as [[|c nb]|];
    destruct (sanitize_has "address" args);
    destruct (sanitize_has "undefined" args);
    destruct (sanitize_has "thread" args);
    cbn [app fmap list_fmap fst]; intros Hk;
    repeat (apply elem_of_cons in Hk as [-> | Hk]);
    try (apply elem_of_nil in Hk; contradiction);
    repeat (first [apply list_elem_of_here | apply list_elem_of_further]).
Qed.

Lemma sticky_ret {A} I (a : A) : sticky I (ret a).
Proof.
  intros w. exists []. cbn [ret fst snd spawn_envs]. rewrite app_nil_r.
  split; [reflexivity |]. split.
  - intros H. split; [constructor | exact H].
  - intros pre e1 post E. destruct pre; discriminate.
Qed.

Lemma sticky_print I line : sticky I (print line).
Proof.
  intros w. exists [EvPrint line]. cbn [spawn_envs].
  split; [reflexivity |]. split.
  - intros H. split; [constructor | exact H].
  - intros pre e1 post E. destruct pre; discriminate.
Qed.

Lemma sticky_bind {A B} I (m : Py A) (k : A -> Py B) :
  sticky I m -> (forall a, sticky I (k a)) -> sticky I (bind m k).
Proof.
  intros Hm Hk w. destruct (Hm w) as (evs1 & He1 & Hin1 & Hst1).
  unfold bind. destruct (m w) as [[a|e] w1]; cbn [fst snd] in *.
  - destruct (Hk a w1) as (evs2 & He2 & Hin2 & Hst2).
    exists (evs1 ++ evs2). split; [now rewrite He2, He1, app_assoc |].
    rewrite spawn_envs_app. split.
    + intros H0. destruct (Hin1 H0) as [F1 H1].
      destruct (Hin2 H1) as [F2 H2]. split; [now apply Forall_app | exact H2].
    + intros pre e1 post E Hi.
      apply app_eq_app in E. destruct E as (l & [[E1 E2]|[E1 E2]]).
      * destruct l as [|x l].
        -- rewrite app_nil_r in E1. cbn [app] in E2. subst pre.
           exact (Hst2 [] e1 post (eq_sym E2) Hi).
        -- cbn [app] in E2. injection E2 as -> ->.
           destruct (Hst1 _ _ _ E1 Hi) as [F1 H1].
           destruct (Hin2 H1) as [F2 H2].
           split; [now apply Forall_app | exact H2].
      * exact (Hst2 _ _ _ E2 Hi).
  - exists evs1. split; [exact He1 |]. split; [exact Hin1 | exact Hst1].
Qed.

Lemma Forall_eq_split {X} (x : X) l pre y post :
  Forall (fun z => z = x) l -> l = pre ++ y :: post ->
  y = x /\ Forall (fun z => z = x) post.
Proof.
  intros H ->. apply Forall_app in H. destruct H as [_ H].
  inversion H; subst. auto.
Qed.

Lemma sticky_handle_invocation host se args (I : gmap string string -> Prop) :
  (forall e, I e -> I (invocation_environ args e)) ->
  sticky I (handle_invocation host se args).
Proof.
  intros Hstable w.
  destruct (handle_invocation_shape host se args w) as (evs & He & Henv & _).
  destruct (handle_invocation_env host se args w) as [_ Hall].
  cbv zeta in Hall. rewrite (new_events_app _ _ _ He) in Hall.
  exists evs. split; [exact He |]. rewrite Henv. split.
  - intros H0. pose proof (Hstable _ H0) as H1. split; [| exact H1].
    eapply Forall_impl; [exact Hall |]. cbn. now intros ? ->.
  - intros pre e1 post E Hi.
    destruct (Forall_eq_split _ _ _ _ _ Hall E) as [-> Hpost].
    split; [| exact Hi].
    eapply Forall_impl; [exact Hpost |]. cbn. now intros ? ->.
Qed.

Lemma sticky_main host args (I : gmap string string -> Prop) :
  (forall a e, I e -> I (invocation_environ a e)) ->
  sticky I (main host args).
Proof.
  intros Hstable w. rewrite main_eq.
  destruct (sanitize_truthy args && sanitize_all args);
    [| destruct (cwd_removed host && cwd_needed args)].
  - destruct (sticky_ret I tt w) as (evs & He & H). now exists evs.
  - destruct (sticky_ret I tt w) as (evs & He & H). now exists evs.
  - revert w. apply sticky_bind.
    + apply sticky_handle_invocation, Hstable.
    + intros _. destruct (sanitize_all args); [| apply sticky_ret].
      induction (matrix (system host)) as [|[san short] passes IH];
        cbn [run_matrix].
      * apply sticky_ret.
      * apply sticky_bind; [apply sticky_print | intros _].
        apply sticky_bind; [| intros _; exact IH].
        apply sticky_handle_invocation, Hstable.
Qed.

Lemma environ_related_bind {A B} (R : relation (gmap string string))
    (m : Py A) (k : A -> Py B) :
  Transitive R ->
  environ_related R m -> (forall a, environ_related R (k a)) ->
  environ_related R (bind m k).
Proof.
  intros HT Hm Hk w. specialize (Hm w). unfold bind.
  destruct (m w) as [[a|e] w1]; cbn [snd] in *; [| exact Hm].
  exact (HT _ _ _ Hm (Hk a w1)).
Qed.

Lemma environ_step_refl e : environ_step e e.
Proof. split; auto. Qed.

Lemma environ_step_trans : Transitive environ_step.
Proof.
  intros e1 e2 e3 [F1 S1] [F2 S2]. split.
  - intros k Hk. now rewrite F2, F1.
  - intros k Hk. auto.
Qed.

Lemma environ_step_invocation args e :
  environ_step e (invocation_environ args e).
Proof.
  split.
  - intros k Hk. apply overlay_frame. intros Hin.
    apply Hk. exact (overlay_keys_script _ _ Hin).
  - intros k Hk. destruct (decide (k ∈ (overlay args).*1)) as [Hin|Hin].
    + apply list_elem_of_fmap in Hin. destruct Hin as ([k' v] & E & Hin).
      cbn [fst] in E. subst k'.
      rewrite (overlay_lookup args e k v Hin). eauto.
    + now rewrite overlay_frame.
Qed.

Lemma environ_step_handle_invocation host se args :
  environ_related environ_step (handle_invocation host se args).
Proof.
  intros w. destruct (handle_invocation_env host se args w) as [-> _].
  apply environ_step_invocation.
Qed.

Lemma environ_step_main host args :
  environ_related environ_step (main host args).
Proof.
  intros w. rewrite main_eq.
  destruct (sanitize_truthy args && sanitize_all args);
    [apply environ_step_refl |].
  destruct (cwd_removed host && cwd_needed args);
    [apply environ_step_refl |].
  revert w. apply environ_related_bind; [exact environ_step_trans | |].
  - apply environ_step_handle_invocation.
  - intros _. destruct (sanitize_all args);
      [| intros w; apply environ_step_refl].
    induction (matrix (system host)) as [|[san short] passes IH];
      cbn [run_matrix].
    + intros w. apply environ_step_refl.
    + apply environ_related_bind; [exact environ_step_trans | |].
      * intros w. apply environ_step_refl.
      * intros _.
        apply environ_related_bind; [exact environ_step_trans | |].
        -- apply environ_step_handle_invocation.
        -- intros _. exact IH.
Qed.

Lemma split_at_second {X} (l : list X) (d : X) :
  (1 < List.length l)%nat ->
  l = take 1 l ++ default d (l !! 1%nat) :: drop 2 l.
Proof. destruct l as [|a [|b l]]; cbn; intros; [lia | lia | reflexivity]. Qed.

(** X4: the sanitizer variables stick.  In any run of [main], as soon
    as one child has received [ASAN_OPTIONS=detect_leaks=false], every
    later child of the run receives it too, whatever its own sanitizer
    set is, and the variable is still in [os.environ] when the run is
    over; the same holds for
    [INDEXSTOREDB_ENABLED_THREAD_SANITIZER=1]. *)
Theorem sanitizer_variables_stick host args w :
  forall pre e1 post,
    spawn_envs (new_events w (snd (main host args w))) = pre ++ e1 :: post ->
    (e1 !! "ASAN_OPTIONS" = Some "detect_leaks=false" ->
     Forall (fun e => e !! "ASAN_OPTIONS" = Some "detect_leaks=false") post
     /\ environ (snd (main host args w)) !! "ASAN_OPTIONS"
        = Some "detect_leaks=false")
    /\ (e1 !! "INDEXSTOREDB_ENABLED_THREAD_SANITIZER" = Some "1" ->
        Forall (fun e => e !! "INDEXSTOREDB_ENABLED_THREAD_SANITIZER" = Some "1")
               post
        /\ environ (snd (main host args w))
             !! "INDEXSTOREDB_ENABLED_THREAD_SANITIZER" = Some "1").
Proof.
  intros pre e1 post E. split; intros H1.
  - destruct (sticky_main host args
                (fun e => e !! "ASAN_OPTIONS" = Some "detect_leaks=false"))
      with (w := w) as (evs & He & _ & Hst).
    + intros a e He. rewrite asan_lookup.
      destruct (sanitize_has "address" a); [reflexivity | exact He].
    + rewrite (new_events_app _ _ _ He) in E. exact (Hst _ _ _ E H1).
  - destruct (sticky_main host args
                (fun e => e !! "INDEXSTOREDB_ENABLED_THREAD_SANITIZER" = Some "1"))
      with (w := w) as (evs & He & _ & Hst).
    + intros a e He. rewrite tsan_lookup.
      destruct (sanitize_has "thread" a); [reflexivity | exact He].
    + rewrite (new_events_app _ _ _ He) in E. exact (Hst _ _ _ E H1).
Qed.

Lemma sanitizer_variables_stick_witness :
  let run := main (ci_host "Darwin" "--fail" 1)
                  (ci_args "build" None true) fresh_world in
  let envs := spawn_envs (new_events fresh_world (snd run)) in
  List.length envs = 4%nat
  /\ Forall (fun e => e !! "ASAN_OPTIONS" = Some "detect_leaks=false")
            (drop 2 envs).
Proof.
  intros run envs.
  assert (Hlen : List.length envs = 4%nat) by (vm_compute; reflexivity).
  split; [exact Hlen |].
  assert (E : envs = take 1 envs ++ default ∅ (envs !! 1%nat) :: drop 2 envs)
    by (apply split_at_second; rewrite Hlen; lia).
  assert (H1 : default ∅ (envs !! 1%nat) !! "ASAN_OPTIONS"
               = Some "detect_leaks=false")
    by (vm_compute; reflexivity).
  destruct (sanitizer_variables_stick (ci_host "Darwin" "--fail" 1)
              (ci_args "build" None true) fresh_world _ _ _ E)
    as [Ha _].
  exact (proj1 (Ha H1)).
Defined.

(** X5: of the process environment, a run of [main] changes nothing
    but the five variables the script names
    ([INDEXSTOREDB_TOOLCHAIN_BIN_PATH], [NINJA_BIN], [ASAN_OPTIONS],
    [UBSAN_OPTIONS], [INDEXSTOREDB_ENABLED_THREAD_SANITIZER]), and it
    never unsets a variable, whether the run completes or fails. *)
Theorem main_environment_frame host args w :
  (forall k, k ∉ script_variables ->
             environ (snd (main host args w)) !! k = environ w !! k)
  /\ (forall k, is_Some (environ w !! k) ->
                is_Some (environ (snd (main host args w)) !! k)).
Proof. exact (environ_step_main host args w). Qed.

Lemma main_environment_frame_witness :
  let w := mkWorld {[ "PATH" := "/usr/bin" ]} (mkFS ∅ ∅) [] in
  let run := main (ci_host "Linux" "--sanitize=thread" 2)
                  (ci_args "test" None true) w in
  environ (snd run) !! "PATH" = Some "/usr/bin".
Proof.
  intros w run.
  destruct (main_environment_frame (ci_host "Linux" "--sanitize=thread" 2)
              (ci_args "test" None true) w) as [Hframe _].
  unfold run. rewrite Hframe; [reflexivity |].
  intros Hin. apply list_elem_of_In in Hin. vm_compute in Hin.
  intuition discriminate.
Defined.

(** X6: the sanitizer variables of an invocation are decided by exact
    membership of the names [address], [undefined] and [thread] in
    [args.sanitize], for any number of entries: each name that occurs
    sets its variable to the fixed value, for each name that does not
    occur (also when the list is absent or holds only other names) the
    variable is left as the process environment had it; every child
    receives exactly that environment. *)
Theorem sanitizer_variables_by_membership host se args w :
  let sans := default [] (sanitize args) in
  let env := environ (snd (handle_invocation host se args w)) in
  Forall (fun e => e = env)
         (spawn_envs (new_events w (snd (handle_invocation host se args w))))
  /\ (In "address" sans -> env !! "ASAN_OPTIONS" = Some "detect_leaks=false")
  /\ (~ In "address" sans -> env !! "ASAN_OPTIONS" = environ w !! "ASAN_OPTIONS")
  /\ (In "undefined" sans ->
      env !! "UBSAN_OPTIONS" =
      Some ("halt_on_error=true,suppressions=" +:+
            Path.join (package_path args) ["Utilities"; "ubsan_supressions.supp"]))
  /\ (~ In "undefined" sans ->
      env !! "UBSAN_OPTIONS" = environ w !! "UBSAN_OPTIONS")
  /\ (In "thread" sans ->
      env !! "INDEXSTOREDB_ENABLED_THREAD_SANITIZER" = Some "1")
  /\ (~ In "thread" sans ->
      env !! "INDEXSTOREDB_ENABLED_THREAD_SANITIZER"
      = environ w !! "INDEXSTOREDB_ENABLED_THREAD_SANITIZER").
Proof.
  intros sans env.
  destruct (handle_invocation_env host se args w) as [Henv Hall].
  cbv zeta in Henv, Hall. fold env in Henv. rewrite <- Henv in Hall.
  split; [exact Hall |].
  assert (Hhas : forall name, sanitize_has name args = true <-> In name sans).
  { intros name. subst sans. unfold sanitize_has, sanitize_truthy.
    destruct (sanitize args) as [[|s l]|]; cbn [default andb].
    - cbn. intuition discriminate.
    - rewrite existsb_exists. split.
      + intros (x & Hx & E). apply String.eqb_eq in E. now subst.
      + intros Hin. exists name. split; [exact Hin | apply String.eqb_refl].
    - cbn. intuition discriminate. }
  assert (Hno : forall name, ~ In name sans -> sanitize_has name args = false).
  { intros name Hn. destruct (sanitize_has name args) eqn:E; [| reflexivity].
    apply Hhas in E. contradiction. }
  rewrite Henv, asan_lookup, ubsan_lookup, tsan_lookup.
  repeat split; intros H.
  - apply Hhas in H. now rewrite H.
  - apply Hno in H. now rewrite H.
  - apply Hhas in H. now rewrite H.
  - apply Hno in H. now rewrite H.
  - apply Hhas in H. now rewrite H.
  - apply Hno in H. now rewrite H.
Qed.

Lemma sanitizer_variables_by_membership_witness :
  let args := ci_args "build" (Some ["undefined"; "memory"; "address"]) false in
  let env := environ (snd (handle_invocation (ci_host "Linux" "--fail" 1)
                             "swift" args fresh_world)) in
  env !! "ASAN_OPTIONS" = Some "detect_leaks=false"
  /\ env !! "UBSAN_OPTIONS" =
     Some "halt_on_error=true,suppressions=./Utilities/ubsan_supressions.supp"
  /\ env !! "INDEXSTOREDB_ENABLED_THREAD_SANITIZER" = None.
Proof.
  intros args env.
  destruct (sanitizer_variables_by_membership (ci_host "Linux" "--fail" 1)
              "swift" args fresh_world)
    as (_ & Ha & _ & Hu & _ & _ & Ht).
  split; [| split].
  - apply Ha. cbn. auto.
  - unfold env. rewrite Hu; [reflexivity | cbn; auto].
  - unfold env. rewrite Ht; [reflexivity |].
    cbn. intuition discriminate.
Defined.

(** X7: running the same invocation a second time leaves
    [os.environ] as the first run left it: the assignments of
    [handle_invocation] are idempotent. *)
Theorem invocation_environment_idempotent host se args w :
  let w1 := snd (handle_invocation host se args w) in
  let w2 := snd (handle_invocation host se args w1) in
  environ w2 = environ w1.
Proof.
  intros w1 w2. subst w2.
  destruct (handle_invocation_env host se args w1) as [-> _].
  subst w1. destruct (handle_invocation_env host se args w) as [-> _].
  apply map_eq. intros k.
  destruct (decide (k ∈ (overlay args).*1)) as [Hin|Hin].
  - apply list_elem_of_fmap in Hin. destruct Hin as ([k' v] & E & Hin).
    cbn [fst] in E. subst k'.
    now rewrite !(overlay_lookup args _ k v Hin).
  - now rewrite overlay_frame.
Qed.

(** ** Outcomes and counts *)

(** A run returns normally only for a well-formed request whose paths
    could be made absolute. *)
Lemma main_ok_valid host args w a :
  fst (main host args w) = Ok a ->
  valid_action (action args)
  /\ sanitize_truthy args && sanitize_all args = false
  /\ cwd_removed host && cwd_needed args = false.
Proof.
  intros Hok.
  destruct (sanitize_truthy args && sanitize_all args) eqn:Hc;
    [rewrite main_eq, Hc in Hok; discriminate |].
  destruct (cwd_removed host && cwd_needed args) eqn:Hl;
    [rewrite main_eq, Hc, Hl in Hok; discriminate |].
  split; [| split; reflexivity].
  destruct (String.eqb_spec (action args) "build") as [Hb|Hb]; [now left |].
  destruct (String.eqb_spec (action args) "test") as [Ht|Ht]; [now right |].
  rewrite (main_proceeds host args w Hc Hl) in Hok.
  erewrite bind_raise in Hok
    by exact (handle_invocation_unknown host _ (canonical (getcwd host) args)
                w Hb Ht).
  discriminate.
Qed.

Lemma spawns_main host args :
  spawns (concat (map (invocation_cmds host
                         (swift_exec_of (canonical (getcwd host) args)))
                      (run_requests host args)))
         (main host args).
Proof.
  intros w a. rewrite main_eq.
  destruct (sanitize_truthy args && sanitize_all args); [discriminate |].
  destruct (cwd_removed host && cwd_needed args); [discriminate |].
  revert w a. unfold run_requests. cbn [map concat].
  apply spawns_bind; [apply spawns_handle_invocation | intros _].
  destruct (sanitize_all args).
  - rewrite map_map. apply spawns_run_matrix.
  - apply spawns_ret.
Qed.

Lemma length_concat_const {X Y} (f : X -> list Y) n l :
  (forall x, In x l -> List.length (f x) = n) ->
  List.length (concat (map f l)) = (n * List.length l)%nat.
Proof.
  induction l as [|x l IH]; intros H; cbn [map concat List.length].
  - lia.
  - rewrite length_app, (H x) by (now left).
    rewrite IH by (intros y Hy; apply H; now right). lia.
Qed.

Lemma run_requests_action host args a :
  In a (run_requests host args) -> action a = action args.
Proof.
  unfold run_requests. intros [<-|Hin]; [reflexivity |].
  destruct (sanitize_all args); [| contradiction].
  apply in_map_iff in Hin. destruct Hin as (p & <- & _). reflexivity.
Qed.

(** X10: a run that completes has started one child per request for
    [build] and two per request for [test] (discovery, then the
    tests), where the requests are the base request alone, or with
    [--sanitize-all] the base request and two sanitizer passes on Linux,
    three elsewhere. *)
Theorem completed_run_child_count host args w :
  fst (main host args w) = Ok tt ->
  List.length (spawn_cmds (new_events w (snd (main host args w)))) =
    ((if String.eqb (action args) "build" then 1 else 2)
     * List.length (run_requests host args))%nat
  /\ List.length (run_requests host args) =
       (1 + (if sanitize_all args
             then (if String.eqb (system host) "Linux" then 2 else 3)
             else 0))%nat.
Proof.
  intros Hok. split.
  - destruct (spawns_main host args w tt Hok) as (evs & He & Hc).
    rewrite (new_events_app _ _ _ He), Hc.
    apply length_concat_const. intros a Hin.
    unfold invocation_cmds. rewrite (run_requests_action _ _ _ Hin).
    destruct (main_ok_valid host args w tt Hok) as [[Ha|Ha] _];
      rewrite Ha; reflexivity.
  - unfold run_requests, matrix. cbn [List.length].
    destruct (sanitize_all args); [| reflexivity].
    destruct (String.eqb (system host) "Linux"); reflexivity.
Qed.

Lemma completed_run_child_count_witness :
  let run := main (ci_host "Darwin" "--fail" 1)
                  (ci_args "test" None true) fresh_world in
  List.length (spawn_cmds (new_events fresh_world (snd run))) = 8%nat.
Proof.
  intros run.
  destruct (completed_run_child_count (ci_host "Darwin" "--fail" 1)
              (ci_args "test" None true) fresh_world) as [H1 H2].
  - vm_compute. reflexivity.
  - fold run in H1. rewrite H1, H2. reflexivity.
Defined.

(** ** Paths and flags *)


Lemma join2_relative_eq a c t :
  Ascii.eqb c "/" = false ->
  Path.join2 a (String c t) =
  (if Str.is_empty a || Str.endswith_sep a then a else a +:+ "/")
  +:+ String c t.
Proof.
  intros Hc. unfold Path.join2. cbn [Str.startswith_sep]. rewrite Hc.
  destruct (Str.is_empty a || Str.endswith_sep a); [reflexivity |].
  now rewrite string_app_assoc.
Qed.

Lemma join_component_suffix a c t :
  Ascii.eqb c "/" = false ->
  Str.ends_with (String c t) (Path.join a [String c t]).
Proof.
  intros Hc. unfold Path.join. cbn [fold_left].
  rewrite (join2_relative_eq _ _ _ Hc). eexists. reflexivity.
Qed.

Lemma filter_sanitize_map sans :
  List.filter (String.prefix "--sanitize=")
              (map (fun san => "--sanitize=" +:+ san) sans)
  = map (fun san => "--sanitize=" +:+ san) sans.
Proof.
  induction sans as [|s sans IH]; [reflexivity |].
  cbn [map List.filter]. rewrite prefix_sanitize_flag. now rewrite IH.
Qed.


Lemma endswith_sep_split x :
  Str.endswith_sep x = true -> exists y, x = y +:+ "/".
Proof.
  induction x as [|c r IH]; [discriminate |].
  destruct r as [|c' r'].
  - cbn [Str.endswith_sep]. intros H. apply Ascii.eqb_eq in H. subst c.
    now exists EmptyString.
  - rewrite endswith_sep_cons by discriminate. intros H.
    destruct (IH H) as (y & ->). now exists (String c y).
Qed.

Lemma join_isdb_tests x :
  Str.ends_with "/isdb-tests" (Path.join x ["isdb-tests"])
  \/ Path.join x ["isdb-tests"] = "isdb-tests".
Proof.
  unfold Path.join. cbn [fold_left].
  rewrite (join2_relative_eq x "i" "sdb-tests" eq_refl).
  destruct x as [|c x]; [now right |]. left.
  cbn [Str.is_empty orb].
  destruct (Str.endswith_sep (String c x)) eqn:E.
  - destruct (endswith_sep_split _ E) as (y & ->).
    exists y. now rewrite string_app_assoc.
  - exists (String c x). now rewrite string_app_assoc.
Qed.

(** X12: for a request with absolute paths and a configuration that is
    not itself a [--sanitize=] flag, the [--sanitize=] entries of the
    flag list are the entries of [args.sanitize], one flag each, in the
    order given and with repetitions kept; without [--sanitize] there
    is none. *)
Theorem sanitize_flags_in_order host args :
  Path.isabs (package_path args) = true ->
  Path.isabs (build_path args) = true ->
  Path.isabs (toolchain args) = true ->
  String.prefix "--sanitize=" (configuration args) = false ->
  List.filter (String.prefix "--sanitize=") (get_swiftpm_options host args)
  = map (fun san => "--sanitize=" +:+ san) (default [] (sanitize args)).
Proof.
  intros Hpp Hbp Htc Hcfg. rewrite get_swiftpm_options_eq.
  pose proof (join_isabs ["lib"; "swift"] _ Htc) as H1.
  pose proof (join_isabs ["lib"; "swift"; "Block"] _ Htc) as H2.
  unfold common_flags, search_path_flags.
  rewrite !List.filter_app.
  assert (Hs : List.filter (String.prefix "--sanitize=") (sanitize_flags args)
               = map (fun san => "--sanitize=" +:+ san) (default [] (sanitize args))).
  { unfold sanitize_flags. destruct (sanitize args) as [sans|]; cbn [default].
    - apply filter_sanitize_map.
    - reflexivity. }
  rewrite Hs.
  destruct (verbose args); destruct (negb (String.eqb (system host) "Darwin"));
    cbn [app List.filter]; eval_flag_tests; cbn [app];
    rewrite ?app_nil_r; reflexivity.
Qed.

Lemma sanitize_flags_in_order_witness :
  let args := mkArgs "build" "/src/pkg" "/opt/toolchain/usr" None "/tmp/b"
                     "release" (Some ["thread"; "undefined"; "thread"])
                     false true in
  List.filter (String.prefix "--sanitize=")
              (get_swiftpm_options (ci_host "Linux" "--fail" 1) args)
  = ["--sanitize=thread"; "--sanitize=undefined"; "--sanitize=thread"].
Proof.
  intros args.
  apply (sanitize_flags_in_order (ci_host "Linux" "--fail" 1) args);
    reflexivity.
Defined.

(** X13: what a test invocation makes of a discovery child that
    exited with 0.  Its output is read as text: decoded, line ends
    turned into line feeds.  If it cannot be decoded, the invocation
    ends with the decoding error, the build directory being the only
    thing removed.  Otherwise the second directory removed is
    [isdb-tests] joined to the text stripped; if nothing is left of
    the text, that is the relative path [isdb-tests], resolved against
    the working directory of the script. *)
Theorem tests_directory_from_discovery_output host se args w out :
  action args = "test" ->
  let run := handle_invocation host se args w in
  let env := invocation_environ args (environ w) in
  new_events w (snd run) !! 3%nat
    = Some (EvSpawn (discovery_cmd host se args) env (Exited 0 out)) ->
  match read_text host out with
  | None =>
      fst run = Raise UnicodeDecodeError
      /\ removals (new_events w (snd run)) = [build_path args]
  | Some text =>
      removals (new_events w (snd run))
        = [build_path args; Path.join (str_strip host text) ["isdb-tests"]]
      /\ (str_strip host text = EmptyString ->
          removals (new_events w (snd run)) = [build_path args; "isdb-tests"])
      /\ Str.ends_with "isdb-tests"
           (Path.join (str_strip host text) ["isdb-tests"])
  end.
Proof.
  intros Ha run env H3.
  destruct (handle_invocation_shape host se args w) as (evs & He & _ & Ht).
  fold run in He, Ht. fold env in Ht.
  rewrite (new_events_app _ _ _ He) in *.
  destruct Ht as [err r Hb|err r1 e _ Hr1|err1 out0 text err2 r2 _ Hrt|err Hb Hn].
  - congruence.
  - cbn in H3. injection H3 as ->. cbn [checked_output] in Hr1.
    destruct (read_text host out) as [text|].
    + discriminate.
    + injection Hr1 as <-. split; reflexivity.
  - cbn in H3. injection H3 as ->. rewrite Hrt.
    split; [reflexivity |]. split.
    + intros Hs. cbn [removals]. rewrite Hs. reflexivity.
    + exact (join_component_suffix _ "i" "sdb-tests" eq_refl).
  - discriminate.
Qed.

Lemma tests_directory_from_discovery_output_witness :
  let host := silent_host "Linux" in
  let args := ci_args "test" None false in
  removals (new_events fresh_world
              (snd (handle_invocation host "swift" args fresh_world)))
  = ["/tmp/b"; "isdb-tests"].
Proof.
  intros host args.
  pose proof (tests_directory_from_discovery_output host "swift" args
                fresh_world newline eq_refl) as H.
  cbv zeta in H.
  change (read_text host newline) with (Some newline) in H.
  destruct H as (_ & H & _).
  - vm_compute. reflexivity.
  - apply H. reflexivity.
Defined.

(** X14: in any run of [main], whatever the build tool answers, the
    only directories the script tries to remove are the build paths of
    its requests (the canonical build path and, with [--sanitize-all],
    its [test-asan], [test-tsan], [test-ubsan] subdirectories) and
    paths whose last component is [isdb-tests]. *)
Theorem removals_are_build_or_tests_directories host args w :
  Forall (fun p => In p (map build_path (run_requests host args))
                   \/ Str.ends_with "/isdb-tests" p
                   \/ p = "isdb-tests")
         (removals (new_events w (snd (main host args w)))).
Proof.
  set (P := fun p : string =>
              In p (map build_path (run_requests host args))
              \/ Str.ends_with "/isdb-tests" p \/ p = "isdb-tests").
  destruct (run_of_main host args (fun evs => Forall P (removals evs)))
    with (w := w) as (evs & He & Hq).
  - split; [constructor |]. intros a b Ha Hb.
    rewrite removals_app. now apply Forall_app.
  - intros line. constructor.
  - intros a e evs r Hin _ H.
    assert (Hbp : P (build_path a)) by (left; now apply in_map).
    pose proof (fun x => or_intror (join_isdb_tests x) : P (Path.join x ["isdb-tests"]))
      as Htests.
    clearbody P.
    destruct H; cbn [removals]; repeat constructor; auto.
  - now rewrite (new_events_app _ _ _ He).
Qed.

(** ** Empty inputs *)

Lemma handle_invocation_empty_ninja host se a pp tc bp cfg s sa v w :
  handle_invocation host se (mkArgs a pp tc (Some EmptyString) bp cfg s sa v) w
  = handle_invocation host se (mkArgs a pp tc None bp cfg s sa v) w.
Proof. rewrite !handle_invocation_split. reflexivity. Qed.

Lemma handle_invocation_empty_sanitize host se a pp tc nb bp cfg sa v w :
  handle_invocation host se (mkArgs a pp tc nb bp cfg (Some []) sa v) w
  = handle_invocation host se (mkArgs a pp tc nb bp cfg None sa v) w.
Proof. rewrite !handle_invocation_split. reflexivity. Qed.

Lemma run_matrix_empty_ninja host se a pp tc bp cfg s1 s2 sa v passes : forall w,
  run_matrix host se (mkArgs a pp tc (Some EmptyString) bp cfg s1 sa v) passes w
  = run_matrix host se (mkArgs a pp tc None bp cfg s2 sa v) passes w.
Proof.
  induction passes as [|[san short] passes IH]; intros w; cbn [run_matrix].
  - reflexivity.
  - apply bind_ext. intros _ w1.
    unfold derived_request.
    cbn [action package_path toolchain ninja_bin build_path configuration
         sanitize sanitize_all verbose].
    unfold bind. rewrite handle_invocation_empty_ninja.
    destruct (handle_invocation _ _ _ w1) as [[[]|e] w2]; [apply IH | reflexivity].
Qed.

(** X15: an empty ninja path and an empty sanitizer list count as
    absent: a request with [ninja_bin = ''] and [sanitize = []] makes
    [handle_invocation] and [main] do exactly what they do for the
    request with both left out (no [NINJA_BIN], no [--sanitize=] flag,
    no sanitizer variable, and no conflict with [--sanitize-all]). *)
Theorem empty_inputs_like_absent host se a pp tc bp cfg sa v w :
  let given := mkArgs a pp tc (Some EmptyString) bp cfg (Some []) sa v in
  let absent := mkArgs a pp tc None bp cfg None sa v in
  handle_invocation host se given w = handle_invocation host se absent w
  /\ main host given w = main host absent w.
Proof.
  intros given absent. split.
  - unfold given, absent.
    now rewrite handle_invocation_empty_ninja, handle_invocation_empty_sanitize.
  - rewrite !main_eq.
    unfold given, absent, canonical, swift_exec_of, sanitize_truthy, cwd_needed.
    cbn [sanitize sanitize_all andb
         action package_path toolchain ninja_bin build_path configuration verbose].
    destruct (cwd_removed host && _); [reflexivity |].
    unfold bind.
    rewrite handle_invocation_empty_ninja, handle_invocation_empty_sanitize.
    destruct (handle_invocation _ _ _ w) as [[[]|e] w1]; [| reflexivity].
    destruct sa; [| reflexivity].
    apply run_matrix_empty_ninja.
Qed.
